(** * imaginary: the image operation layer of [image.go]

    A shallow embedding of the operation catalog ([Info], [Resize],
    [Enlarge], [Extract], [Crop], [Rotate], [Flip], [Flop], [Thumbnail],
    [Zoom], [Convert], [Watermark]) and of the gateway [Process] that wraps
    the native engine, followed by the properties of the validation,
    option-building and failure-boundary logic.

    Go values are modelled as follows.
    - [int] is [Z]; the code only compares these values with [0] and copies
      them, so no wrap-around arithmetic is involved.
    - [uint8] is [Byte.byte], [[]byte] is [list Byte.byte] (a nil slice and an
      empty slice are both the empty list), [string] is [String.string].
    - [float32] values are only copied; they are carried as their IEEE-754
      bit pattern.
    - [error] is [option GoError], [None] being [nil].
    - A Go call either returns or panics ([Outcome]); every call into the
      native engine is recorded in a trace, so that "the engine is not
      invoked" is a statement about the trace. *)

From Stdlib Require Import ZArith List String Ascii Bool Lia.
From Stdlib Require Import Strings.Byte DecimalString.
Import ListNotations.

Local Open Scope string_scope.
Local Open Scope list_scope.
Local Open Scope Z_scope.

(** ** Go base types *)

Definition uint8 : Type := Byte.byte.
Definition bytes : Type := list Byte.byte.
Definition float32 : Type := N.

(** ** Errors *)

(** Modelled from the spec: the error classification of [NewError] and the
    code [BadRequest] (declared outside [image.go]).  Only the
    bad-input class is used by this file; the other class stands for any
    other code. *)
Inductive ErrorCode : Type :=
| BadRequest
| OtherCode (c : N).

(** Modelled from the spec: [NewError], the constructor of this package's
    classified error (declared outside [image.go]), keeps the message and
    the code it is given.  The two other constructors are the error values
    made elsewhere: [errors_New] is the standard [errors.New], and
    [ForeignError] is any error made by the engine or the runtime,
    identified by its message. *)
Inductive GoError : Type :=
| NewError (msg : string) (code : ErrorCode)
| errors_New (msg : string)
| ForeignError (msg : string).

Definition error : Type := option GoError.

(** [err.Error()] *)
Definition Error_ (e : GoError) : string :=
  match e with
  | NewError msg _ => msg
  | errors_New msg => msg
  | ForeignError msg => msg
  end.

(** ** Panics and the call trace *)

(** The value a panic carries, as [recover()] sees it: nil, or, by the
    dynamic types the type switch of [Process] tells apart, an [error], a
    [string], or a value of any other type.  [PanicNil] is a [panic(nil)]
    under the semantics of Go up to 1.20 (which a newer toolchain keeps for
    modules declaring go 1.20 or less, and with [GODEBUG=panicnil=1]); from
    Go 1.21 on the runtime replaces the nil by a [*runtime.PanicNilError],
    which is a [PanicError]. *)
Inductive PanicValue : Type :=
| PanicNil
| PanicError (e : GoError)
| PanicString (s : string)
| PanicOther (v : Z).

(** [recover()] in a deferred closure while a panic with value [v] is under
    way: the value of the panic, which is nil for a nil panic. *)
Definition recover (v : PanicValue) : option PanicValue :=
  match v with
  | PanicNil => None
  | _ => Some v
  end.

Inductive Outcome (A : Type) : Type :=
| Returns (a : A)
| Panics (v : PanicValue).

Arguments Returns {A} a.
Arguments Panics {A} v.

(** ** The native engine's types (package [bimg]) *)

Module bimg.

Definition ImageType : Type := Z.
Definition UNKNOWN : ImageType := 0.

Module Color.
Record t : Type := mk { R : uint8; G : uint8; B : uint8 }.
Definition zero : t := mk x00 x00 x00.
End Color.

Module Watermark.
Record t : Type := mk {
  Width : Z;
  DPI : Z;
  Margin : Z;
  Opacity : float32;
  NoReplicate : bool;
  Text : string;
  Font : string;
  Background : Color.t
}.
Definition zero : t := mk 0 0 0 0%N false "" "" Color.zero.

(** Field assignments [w.F = v]. *)
Definition set_Width (v : Z) (x : t) : t :=
  let 'mk w d m o n tx f b := x in mk v d m o n tx f b.
Definition set_DPI (v : Z) (x : t) : t :=
  let 'mk w d m o n tx f b := x in mk w v m o n tx f b.
Definition set_Margin (v : Z) (x : t) : t :=
  let 'mk w d m o n tx f b := x in mk w d v o n tx f b.
Definition set_Opacity (v : float32) (x : t) : t :=
  let 'mk w d m o n tx f b := x in mk w d m v n tx f b.
Definition set_NoReplicate (v : bool) (x : t) : t :=
  let 'mk w d m o n tx f b := x in mk w d m o v tx f b.
Definition set_Text (v : string) (x : t) : t :=
  let 'mk w d m o n tx f b := x in mk w d m o n v f b.
Definition set_Font (v : string) (x : t) : t :=
  let 'mk w d m o n tx f b := x in mk w d m o n tx v b.
Definition set_Background (v : Color.t) (x : t) : t :=
  let 'mk w d m o n tx f b := x in mk w d m o n tx f v.
End Watermark.

Module Options.
(** The fields of [bimg.Options] that the mapper and the operations set. *)
Record t : Type := mk {
  Height : Z;
  Width : Z;
  AreaHeight : Z;
  AreaWidth : Z;
  Top : Z;
  Left : Z;
  Quality : Z;
  Compression : Z;
  Zoom : Z;
  Crop : bool;
  Enlarge : bool;
  Embed : bool;
  Flip : bool;
  Flop : bool;
  Force : bool;
  Rotate : Z;
  Extend : string;
  Background : Color.t;
  Gravity : string;
  Interpretation : string;
  Watermark : Watermark.t;
  Type_ : ImageType
}.

Definition zero : t :=
  mk 0 0 0 0 0 0 0 0 0 false false false false false false 0
     "" Color.zero "" "" Watermark.zero UNKNOWN.

(** Field assignments [opts.F = v]. *)
Definition set_AreaHeight (v : Z) (o : t) : t :=
  let 'mk h w ah aw tp lf q c z cr en em fi fo fr ro ex bg gr ip wm ty := o in
  mk h w v aw tp lf q c z cr en em fi fo fr ro ex bg gr ip wm ty.
Definition set_AreaWidth (v : Z) (o : t) : t :=
  let 'mk h w ah aw tp lf q c z cr en em fi fo fr ro ex bg gr ip wm ty := o in
  mk h w ah v tp lf q c z cr en em fi fo fr ro ex bg gr ip wm ty.
Definition set_Top (v : Z) (o : t) : t :=
  let 'mk h w ah aw tp lf q c z cr en em fi fo fr ro ex bg gr ip wm ty := o in
  mk h w ah aw v lf q c z cr en em fi fo fr ro ex bg gr ip wm ty.
Definition set_Left (v : Z) (o : t) : t :=
  let 'mk h w ah aw tp lf q c z cr en em fi fo fr ro ex bg gr ip wm ty := o in
  mk h w ah aw tp v q c z cr en em fi fo fr ro ex bg gr ip wm ty.
Definition set_Zoom (v : Z) (o : t) : t :=
  let 'mk h w ah aw tp lf q c z cr en em fi fo fr ro ex bg gr ip wm ty := o in
  mk h w ah aw tp lf q c v cr en em fi fo fr ro ex bg gr ip wm ty.
Definition set_Crop (v : bool) (o : t) : t :=
  let 'mk h w ah aw tp lf q c z cr en em fi fo fr ro ex bg gr ip wm ty := o in
  mk h w ah aw tp lf q c z v en em fi fo fr ro ex bg gr ip wm ty.
Definition set_Enlarge (v : bool) (o : t) : t :=
  let 'mk h w ah aw tp lf q c z cr en em fi fo fr ro ex bg gr ip wm ty := o in
  mk h w ah aw tp lf q c z cr v em fi fo fr ro ex bg gr ip wm ty.
Definition set_Embed (v : bool) (o : t) : t :=
  let 'mk h w ah aw tp lf q c z cr en em fi fo fr ro ex bg gr ip wm ty := o in
  mk h w ah aw tp lf q c z cr en v fi fo fr ro ex bg gr ip wm ty.
Definition set_Flip (v : bool) (o : t) : t :=
  let 'mk h w ah aw tp lf q c z cr en em fi fo fr ro ex bg gr ip wm ty := o in
  mk h w ah aw tp lf q c z cr en em v fo fr ro ex bg gr ip wm ty.
Definition set_Flop (v : bool) (o : t) : t :=
  let 'mk h w ah aw tp lf q c z cr en em fi fo fr ro ex bg gr ip wm ty := o in
  mk h w ah aw tp lf q c z cr en em fi v fr ro ex bg gr ip wm ty.
Definition set_Watermark (v : Watermark.t) (o : t) : t :=
  let 'mk h w ah aw tp lf q c z cr en em fi fo fr ro ex bg gr ip wm ty := o in
  mk h w ah aw tp lf q c z cr en em fi fo fr ro ex bg gr ip v ty.

(** Assignment to a field of the nested struct, [opts.Watermark.F = v]. *)
Definition in_Watermark (f : Watermark.t -> Watermark.t) (o : t) : t :=
  set_Watermark (f (Watermark o)) o.
End Options.

Module ImageSize.
Record t : Type := mk { Width : Z; Height : Z }.
End ImageSize.

Module ImageMetadata.
Record t : Type := mk {
  Orientation : Z;
  Channels : Z;
  Alpha : bool;
  Profile : bool;
  Type_ : string;
  Space : string;
  Size : ImageSize.t
}.
End ImageMetadata.

(** The three entry points of the engine this file calls.  [Resize] and
    [Metadata] are native calls: they return a result and an [error], or
    panic.  [DetermineImageType] is a lookup on the first bytes. *)
Class Engine : Type := {
  Resize : bytes -> Options.t -> Outcome (bytes * error);
  Metadata : bytes -> Outcome (ImageMetadata.t * error);
  DetermineImageType : bytes -> ImageType
}.

End bimg.

(** One entry per call into the native engine, in call order. *)
Inductive EngineCall : Type :=
| CallResize (buf : bytes) (opts : bimg.Options.t)
| CallMetadata (buf : bytes).

Definition Trace : Type := list EngineCall.

(** A Go computation: its outcome and the engine calls it made. *)
Definition Go (A : Type) : Type := (Outcome A * Trace)%type.

Definition ret {A : Type} (a : A) : Go A := (Returns a, []).

Definition bind {A B : Type} (c : Go A) (k : A -> Go B) : Go B :=
  match c with
  | (Returns a, t) => let '(r, t') := k a in (r, (t ++ t')%list)
  | (Panics v, t) => (Panics v, t)
  end.

Notation "x <- c ;; k" := (bind c (fun x => k))
  (at level 61, c at next level, right associativity).
Notation "' pat <- c ;; k" := (bind c (fun x => match x with pat => k end))
  (at level 61, pat pattern, c at next level, right associativity).

(** A function with named results whose deferred closure calls [recover()]:
    the closure runs on every exit path and is given what [recover()]
    yields, nil ([None]) after a normal return and the value of the panic
    after a panic (nil again for a nil panic); it may overwrite the named
    results, and since it called [recover()], the function then returns
    normally.  [named] holds the named results at the moment of the
    panic. *)
Definition defer_recover {A : Type} (named : A)
    (deferred : option PanicValue -> A -> A) (body : Go A) : Go A :=
  match body with
  | (Returns a, t) => (Returns (deferred None a), t)
  | (Panics v, t) => (Returns (deferred (recover v) named), t)
  end.

Definition calls {A : Type} (c : Go A) : Trace := snd c.

(** Slice indexing [s[i]]: panics with a runtime error when out of range. *)
Definition slice_index {A : Type} (s : list A) (i : nat) : Go A :=
  match nth_error s i with
  | Some x => ret x
  | None => (Panics (PanicError (ForeignError "runtime error: index out of range")), [])
  end.

(** Go's [len], as an [int]. *)
Definition len {A : Type} (s : list A) : Z := Z.of_nat (List.length s).

(** ** The package's own types *)

(** [Image] stores an image binary buffer and its MIME type. *)
Record Image : Type := mkImage { Body : bytes; Mime : string }.

(** [Image{}] *)
Definition Image_zero : Image := mkImage [] "".

(** Modelled from the spec: the request options record [ImageOptions]
    (declared outside [image.go]), with the fields of the spec's data model.
    The watermark colour is indexed and measured by [Watermark], so it is a
    sequence of [uint8]; [Factor] is assigned to the engine's integer [Zoom]
    field, so it is an [int]. *)
Module ImageOptions.
Record t : Type := mk {
  Width : Z;
  Height : Z;
  AreaWidth : Z;
  AreaHeight : Z;
  Quality : Z;
  Compression : Z;
  Rotate : Z;
  Top : Z;
  Left : Z;
  Margin : Z;
  Factor : Z;
  DPI : Z;
  TextWidth : Z;
  Force : bool;
  Embed : bool;
  NoCrop : bool;
  NoReplicate : bool;
  NoRotation : bool;
  NoProfile : bool;
  Flip : bool;
  Flop : bool;
  Opacity : float32;
  Text : string;
  Font : string;
  Type_ : string;
  File : string;
  URL : string;
  Color : list uint8;
  Background : bimg.Color.t;
  Extend : string;
  Gravity : string;
  Colorspace : string
}.

Definition zero : t :=
  mk 0 0 0 0 0 0 0 0 0 0 0 0 0
     false false false false false false false false
     0%N "" "" "" "" "" [] bimg.Color.zero "" "" "".
End ImageOptions.

(** [ImageInfo] represents an image details and additional metadata. *)
Module ImageInfo.
Record t : Type := mk {
  Width : Z;
  Height : Z;
  Type_ : string;
  Space : string;
  Alpha : bool;
  Profile : bool;
  Channels : Z;
  Orientation : Z
}.
End ImageInfo.

(** Functions of package [main] that [image.go] calls and that are defined
    in its other files: the option mapper, the parser of a type name and the
    MIME lookup. *)
Class PackageMain : Type := {
  BimgOptions : ImageOptions.t -> bimg.Options.t;
  ImageType : string -> bimg.ImageType;
  GetImageMimeType : bimg.ImageType -> string
}.

(** Modelled from the spec: the option mapper, a field-for-field copy of
    dimensions, quality, compression, rotate, flip, flop, force, extend,
    background, colorspace and gravity, and of the mapped type; every other
    engine field is left at its zero value. *)
Definition spec_BimgOptions (image_type : string -> bimg.ImageType)
    (o : ImageOptions.t) : bimg.Options.t :=
  {| bimg.Options.Height := ImageOptions.Height o;
     bimg.Options.Width := ImageOptions.Width o;
     bimg.Options.AreaHeight := 0;
     bimg.Options.AreaWidth := 0;
     bimg.Options.Top := 0;
     bimg.Options.Left := 0;
     bimg.Options.Quality := ImageOptions.Quality o;
     bimg.Options.Compression := ImageOptions.Compression o;
     bimg.Options.Zoom := 0;
     bimg.Options.Crop := false;
     bimg.Options.Enlarge := false;
     bimg.Options.Embed := false;
     bimg.Options.Flip := ImageOptions.Flip o;
     bimg.Options.Flop := ImageOptions.Flop o;
     bimg.Options.Force := ImageOptions.Force o;
     bimg.Options.Rotate := ImageOptions.Rotate o;
     bimg.Options.Extend := ImageOptions.Extend o;
     bimg.Options.Background := ImageOptions.Background o;
     bimg.Options.Gravity := ImageOptions.Gravity o;
     bimg.Options.Interpretation := ImageOptions.Colorspace o;
     bimg.Options.Watermark := bimg.Watermark.zero;
     bimg.Options.Type_ := image_type (ImageOptions.Type_ o) |}.

(** ** [encoding/json] on [ImageInfo] *)

Inductive JSONValue : Type :=
| JSONNumber (n : Z)
| JSONString (s : string)
| JSONBool (b : bool).

(** The members of a JSON object, in output order. *)
Definition JSONObject : Type := list (string * JSONValue).

Definition quote : ascii := ascii_of_nat 34.
Definition backslash : ascii := ascii_of_nat 92.

Definition hex (n : N) : ascii :=
  nth (N.to_nat n) (list_ascii_of_string "0123456789abcdef") "0"%char.

(** The Go toolchain the package is built with, as far as this file
    depends on it: from Go 1.22 on [encoding/json] writes backspace and form
    feed with their short escapes, and before as [\u0008] and [\u000c]. *)
Class Toolchain : Type := { json_short_escapes : bool }.

(** The byte of [s] at offset [i], if any. *)
Definition byte_at (s : string) (i : nat) : option N :=
  option_map N_of_ascii (String.get i s).

Definition between (lo hi : N) (b : option N) : bool :=
  match b with
  | Some x => ((lo <=? x) && (x <=? hi))%N
  | None => false
  end.

(** The number of bytes of the UTF-8 encoding that starts with the byte
    [b0] followed by [rest], and 0 when these bytes do not start a valid
    encoding (a stray continuation byte, an overlong form, a surrogate, a
    value above U+10FFFF, a truncated sequence): the cases of
    [utf8.DecodeRuneInString]. *)
Definition utf8_width (b0 : N) (rest : string) : nat :=
  let b1 := byte_at rest 0 in
  let b2 := byte_at rest 1 in
  let b3 := byte_at rest 2 in
  let cont := between 128 191 in
  if ((194 <=? b0) && (b0 <=? 223))%N then
    if cont b1 then 2%nat else 0%nat
  else if (b0 =? 224)%N then
    if between 160 191 b1 && cont b2 then 3%nat else 0%nat
  else if (((225 <=? b0) && (b0 <=? 236)) || (b0 =? 238) || (b0 =? 239))%N then
    if cont b1 && cont b2 then 3%nat else 0%nat
  else if (b0 =? 237)%N then
    if between 128 159 b1 && cont b2 then 3%nat else 0%nat
  else if (b0 =? 240)%N then
    if between 144 191 b1 && cont b2 && cont b3 then 4%nat else 0%nat
  else if ((241 <=? b0) && (b0 <=? 243))%N then
    if cont b1 && cont b2 && cont b3 then 4%nat else 0%nat
  else if (b0 =? 244)%N then
    if between 128 143 b1 && cont b2 && cont b3 then 4%nat else 0%nat
  else 0%nat.

(** The low hexadecimal digit of U+2028 or U+2029 when [b0] and [rest]
    start the encoding of one of them. *)
Definition line_separator (b0 : N) (rest : string) : option N :=
  if (b0 =? 226)%N && between 128 128 (byte_at rest 0) then
    if between 168 168 (byte_at rest 1) then Some 8%N
    else if between 169 169 (byte_at rest 1) then Some 9%N
    else None
  else None.

(** What is left to do with the continuation bytes of the character whose
    first byte was just read: copy the next [k] bytes, or drop them. *)
Inductive Pending : Type :=
| Copy (k : nat)
| Drop (k : nat).

Section Json.

Context {go : Toolchain}.

(** The JSON string encoder on one ASCII byte: quote and backslash are
    escaped with a backslash; newline, carriage return and tab have their
    short forms, and so have backspace and form feed from Go 1.22 on; the
    other control characters and the HTML-sensitive [<], [>] and [&] become
    a [\u00XX] escape; everything else is copied. *)
Definition json_escape_char (c : ascii) : string :=
  let b := N_of_ascii c in
  if (b =? 34)%N || (b =? 92)%N then String backslash (String c "")
  else if (b =? 10)%N then String backslash "n"
  else if (b =? 13)%N then String backslash "r"
  else if (b =? 9)%N then String backslash "t"
  else if json_short_escapes && (b =? 8)%N then String backslash "b"
  else if json_short_escapes && (b =? 12)%N then String backslash "f"
  else if (b <? 32)%N || (b =? 60)%N || (b =? 62)%N || (b =? 38)%N
       then String backslash (String "u" (String "0" (String "0"
              (String (hex (b / 16)) (String (hex (b mod 16)) "")))))
  else String c "".

(** The encoder on a string, byte by byte: an ASCII byte goes through
    [json_escape_char]; a byte that does not start a valid UTF-8 encoding
    is replaced by the escape of U+FFFD; U+2028 and U+2029 are escaped; any
    other character is copied with its continuation bytes. *)
Fixpoint json_escape_from (p : Pending) (s : string) : string :=
  match s with
  | EmptyString => ""
  | String c s' =>
      match p with
      | Copy (S k) => String c (json_escape_from (Copy k) s')
      | Drop (S k) => json_escape_from (Drop k) s'
      | _ =>
          let b := N_of_ascii c in
          if (b <? 128)%N then
            (json_escape_char c ++ json_escape_from (Copy 0) s')%string
          else
            match utf8_width b s' with
            | O =>
                (String backslash "ufffd" ++ json_escape_from (Copy 0) s')%string
            | S k =>
                match line_separator b s' with
                | Some d =>
                    (String backslash "u202" ++ String (hex d) ""
                     ++ json_escape_from (Drop k) s')%string
                | None => String c (json_escape_from (Copy k) s')
                end
            end
      end
  end.

Definition json_escape (s : string) : string := json_escape_from (Copy 0) s.

Definition json_quote (s : string) : string :=
  String quote (json_escape s ++ String quote "")%string.

Definition json_value (v : JSONValue) : string :=
  match v with
  | JSONNumber n => NilZero.string_of_int (Z.to_int n)
  | JSONString s => json_quote s
  | JSONBool true => "true"
  | JSONBool false => "false"
  end.

Definition json_member (m : string * JSONValue) : string :=
  (json_quote (fst m) ++ ":" ++ json_value (snd m))%string.

Definition json_object (members : JSONObject) : string :=
  ("{" ++ String.concat "," (map json_member members) ++ "}")%string.

End Json.

(** The members [json.Marshal] writes for an [ImageInfo], each under the name
    its struct tag gives. *)
Definition ImageInfo_members (info : ImageInfo.t) : JSONObject :=
  [ ("Width (in pixels) of image area to extract/resize.",
       JSONNumber (ImageInfo.Width info));
    ("height", JSONNumber (ImageInfo.Height info));
    ("type", JSONString (ImageInfo.Type_ info));
    ("space", JSONString (ImageInfo.Space info));
    ("hasAlpha", JSONBool (ImageInfo.Alpha info));
    ("hasProfile", JSONBool (ImageInfo.Profile info));
    ("channels", JSONNumber (ImageInfo.Channels info));
    ("orientation", JSONNumber (ImageInfo.Orientation info)) ].

(** [json.Marshal(info)]; it has no failure case on this struct. *)
Definition json_Marshal {go : Toolchain} (info : ImageInfo.t)
  : bytes * error :=
  (list_byte_of_string (json_object (ImageInfo_members info)), None).

(** ** The operations of [image.go] *)

(** [Operation] implements an image transformation runnable interface. *)
Definition Operation : Type := bytes -> ImageOptions.t -> Go (Image * error).

(** [Run] performs the image transformation. *)
Definition Run (o : Operation) (buf : bytes) (opts : ImageOptions.t)
  : Go (Image * error) := o buf opts.

Section Operations.

Context {engine : bimg.Engine} {pkg : PackageMain} {go : Toolchain}.

(** The two native calls, each leaving its entry in the trace. *)
Definition bimg_Resize (buf : bytes) (opts : bimg.Options.t)
  : Go (bytes * error) :=
  (bimg.Resize buf opts, [CallResize buf opts]).

Definition bimg_Metadata (buf : bytes) : Go (bimg.ImageMetadata.t * error) :=
  (bimg.Metadata buf, [CallMetadata buf]).

(** The deferred closure of [Process]: [r] is the result of [recover()],
    [named] the named results [(out, err)].  The guard [r != nil] is the
    outer match; in the type switch a nil value would take the default
    case. *)
Definition Process_deferred (r : option PanicValue) (named : Image * error)
  : Image * error :=
  match r with
  | Some value =>
      let err :=
        match value with
        | PanicError e => Some e
        | PanicString s => Some (errors_New s)
        | PanicOther _ | PanicNil =>
            Some (errors_New "libvips internal error")
        end in
      (Image_zero, err)
  | None => named
  end.

Definition Process (buf : bytes) (opts : bimg.Options.t) : Go (Image * error) :=
  defer_recover (Image_zero, None) Process_deferred
    ('(buf, err) <- bimg_Resize buf opts ;;
     match err with
     | Some _ => ret (Image_zero, err)
     | None =>
         let mime := GetImageMimeType (bimg.DetermineImageType buf) in
         ret (mkImage buf mime, None)
     end).

Definition Info (buf : bytes) (o : ImageOptions.t) : Go (Image * error) :=
  let image := mkImage [] "application/json" in
  '(meta, err) <- bimg_Metadata buf ;;
  match err with
  | Some e =>
      ret (image,
           Some (NewError
                   ("Cannot retrieve image medatata: %s" ++ Error_ e)%string
                   BadRequest))
  | None =>
      let info :=
        {| ImageInfo.Width := bimg.ImageSize.Width (bimg.ImageMetadata.Size meta);
           ImageInfo.Height := bimg.ImageSize.Height (bimg.ImageMetadata.Size meta);
           ImageInfo.Type_ := bimg.ImageMetadata.Type_ meta;
           ImageInfo.Space := bimg.ImageMetadata.Space meta;
           ImageInfo.Alpha := bimg.ImageMetadata.Alpha meta;
           ImageInfo.Profile := bimg.ImageMetadata.Profile meta;
           ImageInfo.Channels := bimg.ImageMetadata.Channels meta;
           ImageInfo.Orientation := bimg.ImageMetadata.Orientation meta |} in
      let '(body, _) := json_Marshal info in
      let image := mkImage body (Mime image) in
      ret (image, None)
  end.

Definition Resize (buf : bytes) (o : ImageOptions.t) : Go (Image * error) :=
  if (ImageOptions.Width o =? 0) && (ImageOptions.Height o =? 0) then
    ret (Image_zero,
         Some (NewError "Missing required param: height or width" BadRequest))
  else
    let opts := BimgOptions o in
    let opts := bimg.Options.set_Embed true opts in
    let opts :=
      if Bool.eqb (ImageOptions.NoCrop o) false
      then bimg.Options.set_Crop true opts else opts in
    Process buf opts.

Definition Enlarge (buf : bytes) (o : ImageOptions.t) : Go (Image * error) :=
  if (ImageOptions.Width o =? 0) || (ImageOptions.Height o =? 0) then
    ret (Image_zero,
         Some (NewError "Missing required params: height, width" BadRequest))
  else
    let opts := BimgOptions o in
    let opts := bimg.Options.set_Enlarge true opts in
    let opts :=
      if Bool.eqb (ImageOptions.NoCrop o) false
      then bimg.Options.set_Crop true opts else opts in
    Process buf opts.

Definition Extract (buf : bytes) (o : ImageOptions.t) : Go (Image * error) :=
  if (ImageOptions.AreaWidth o =? 0) || (ImageOptions.AreaHeight o =? 0) then
    ret (Image_zero,
         Some (NewError "Missing required params: areawidth or areaheight"
                        BadRequest))
  else
    let opts := BimgOptions o in
    let opts := bimg.Options.set_Top (ImageOptions.Top o) opts in
    let opts := bimg.Options.set_Left (ImageOptions.Left o) opts in
    let opts := bimg.Options.set_AreaWidth (ImageOptions.AreaWidth o) opts in
    let opts := bimg.Options.set_AreaHeight (ImageOptions.AreaHeight o) opts in
    Process buf opts.

Definition Crop (buf : bytes) (o : ImageOptions.t) : Go (Image * error) :=
  if (ImageOptions.Width o =? 0) && (ImageOptions.Height o =? 0) then
    ret (Image_zero,
         Some (NewError "Missing required param: height or width" BadRequest))
  else
    let opts := BimgOptions o in
    let opts := bimg.Options.set_Crop true opts in
    Process buf opts.

Definition Rotate (buf : bytes) (o : ImageOptions.t) : Go (Image * error) :=
  if ImageOptions.Rotate o =? 0 then
    ret (Image_zero, Some (NewError "Missing required param: rotate" BadRequest))
  else
    let opts := BimgOptions o in
    Process buf opts.

Definition Flip (buf : bytes) (o : ImageOptions.t) : Go (Image * error) :=
  let opts := BimgOptions o in
  let opts := bimg.Options.set_Flip true opts in
  Process buf opts.

Definition Flop (buf : bytes) (o : ImageOptions.t) : Go (Image * error) :=
  let opts := BimgOptions o in
  let opts := bimg.Options.set_Flop true opts in
  Process buf opts.

Definition Thumbnail (buf : bytes) (o : ImageOptions.t) : Go (Image * error) :=
  if (ImageOptions.Width o =? 0) && (ImageOptions.Height o =? 0) then
    ret (Image_zero,
         Some (NewError "Missing required params: width or height" BadRequest))
  else
    Process buf (BimgOptions o).

(** The block guarded by [o.Top > 0 || o.Left > 0] in [Zoom]: it either
    returns early ([inl]) or falls through with the options it updated
    ([inr]). *)
Definition Zoom_extract_area (o : ImageOptions.t) (opts : bimg.Options.t)
  : (Image * error) + bimg.Options.t :=
  if (ImageOptions.Top o >? 0) || (ImageOptions.Left o >? 0) then
    if (ImageOptions.AreaWidth o =? 0) && (ImageOptions.AreaHeight o =? 0) then
      inl (Image_zero,
           Some (NewError "Missing required params: areawidth, areaheight"
                          BadRequest))
    else
      let opts := bimg.Options.set_Top (ImageOptions.Top o) opts in
      let opts := bimg.Options.set_Left (ImageOptions.Left o) opts in
      let opts := bimg.Options.set_AreaWidth (ImageOptions.AreaWidth o) opts in
      let opts := bimg.Options.set_AreaHeight (ImageOptions.AreaHeight o) opts in
      let opts :=
        if Bool.eqb (ImageOptions.NoCrop o) false
        then bimg.Options.set_Crop true opts else opts in
      inr opts
  else inr opts.

Definition Zoom (buf : bytes) (o : ImageOptions.t) : Go (Image * error) :=
  if ImageOptions.Factor o =? 0 then
    ret (Image_zero, Some (NewError "Missing required param: factor" BadRequest))
  else
    let opts := BimgOptions o in
    match Zoom_extract_area o opts with
    | inl early => ret early
    | inr opts =>
        let opts := bimg.Options.set_Zoom (ImageOptions.Factor o) opts in
        Process buf opts
    end.

Definition Convert (buf : bytes) (o : ImageOptions.t) : Go (Image * error) :=
  if String.eqb (ImageOptions.Type_ o) "" then
    ret (Image_zero, Some (NewError "Missing required param: type" BadRequest))
  else if ImageType (ImageOptions.Type_ o) =? bimg.UNKNOWN then
    ret (Image_zero,
         Some (NewError ("Invalid image type: " ++ ImageOptions.Type_ o)%string
                        BadRequest))
  else
    let opts := BimgOptions o in
    Process buf opts.

Definition Watermark (buf : bytes) (o : ImageOptions.t) : Go (Image * error) :=
  if String.eqb (ImageOptions.Text o) "" then
    ret (Image_zero, Some (NewError "Missing required param: text" BadRequest))
  else
    let opts := BimgOptions o in
    let opts := bimg.Options.in_Watermark
                  (bimg.Watermark.set_DPI (ImageOptions.DPI o)) opts in
    let opts := bimg.Options.in_Watermark
                  (bimg.Watermark.set_Text (ImageOptions.Text o)) opts in
    let opts := bimg.Options.in_Watermark
                  (bimg.Watermark.set_Font (ImageOptions.Font o)) opts in
    let opts := bimg.Options.in_Watermark
                  (bimg.Watermark.set_Margin (ImageOptions.Margin o)) opts in
    let opts := bimg.Options.in_Watermark
                  (bimg.Watermark.set_Width (ImageOptions.TextWidth o)) opts in
    let opts := bimg.Options.in_Watermark
                  (bimg.Watermark.set_Opacity (ImageOptions.Opacity o)) opts in
    let opts := bimg.Options.in_Watermark
                  (bimg.Watermark.set_NoReplicate (ImageOptions.NoReplicate o))
                  opts in
    opts <- (if len (ImageOptions.Color o) >? 2 then
               c0 <- slice_index (ImageOptions.Color o) 0 ;;
               c1 <- slice_index (ImageOptions.Color o) 1 ;;
               c2 <- slice_index (ImageOptions.Color o) 2 ;;
               ret (bimg.Options.in_Watermark
                      (bimg.Watermark.set_Background (bimg.Color.mk c0 c1 c2))
                      opts)
             else ret opts) ;;
    Process buf opts.

End Operations.

(** The operations of the catalog, by route name. *)
Inductive OperationName : Type :=
| info | resize | enlarge | extract | crop | rotate
| flip | flop | thumbnail | zoom | convert | watermark.

Definition catalog {engine : bimg.Engine} {pkg : PackageMain}
    {go : Toolchain} (name : OperationName) : Operation :=
  match name with
  | info => Info
  | resize => Resize
  | enlarge => Enlarge
  | extract => Extract
  | crop => Crop
  | rotate => Rotate
  | flip => Flip
  | flop => Flop
  | thumbnail => Thumbnail
  | zoom => Zoom
  | convert => Convert
  | watermark => Watermark
  end.

(** ** A concrete engine and package, to run the operations on inputs *)

Module Sample.

Definition JPEG : bimg.ImageType := 1.
Definition WEBP : bimg.ImageType := 2.
Definition PNG : bimg.ImageType := 3.

(** Type detection by magic number. *)
Definition determine (buf : bytes) : bimg.ImageType :=
  match buf with
  | xff :: xd8 :: _ => JPEG
  | x89 :: x50 :: _ => PNG
  | x52 :: x49 :: _ => WEBP
  | _ => bimg.UNKNOWN
  end.

(** An engine that fails with an error on a buffer of unknown type, panics
    on three marked buffers (with an error, a string and an integer), and
    otherwise hands the buffer back. *)
Definition resize (buf : bytes) (opts : bimg.Options.t)
  : Outcome (bytes * error) :=
  match buf with
  | x00 :: x00 :: _ => Panics (PanicError (ForeignError "vips: out of memory"))
  | x00 :: x01 :: _ => Panics (PanicString "vips: bad pointer")
  | x00 :: _ => Panics (PanicOther 11)
  | _ =>
      if determine buf =? bimg.UNKNOWN
      then Returns ([], Some (ForeignError "Unsupported image format"))
      else Returns (buf, None)
  end.

Definition metadata (buf : bytes) : Outcome (bimg.ImageMetadata.t * error) :=
  if determine buf =? JPEG then
    Returns (bimg.ImageMetadata.mk 1 3 false false "jpeg" "srgb"
               (bimg.ImageSize.mk 640 480), None)
  else
    Returns (bimg.ImageMetadata.mk 0 0 false false "" ""
               (bimg.ImageSize.mk 0 0),
             Some (ForeignError "Unsupported image format")).

Definition engine : bimg.Engine :=
  {| bimg.Resize := resize;
     bimg.Metadata := metadata;
     bimg.DetermineImageType := determine |}.

(** The output formats the route documentation lists: jpeg, png, webp. *)
Definition image_type (name : string) : bimg.ImageType :=
  if String.eqb name "jpeg" then JPEG
  else if String.eqb name "png" then PNG
  else if String.eqb name "webp" then WEBP
  else bimg.UNKNOWN.

Definition mime_type (code : bimg.ImageType) : string :=
  if code =? PNG then "image/png"
  else if code =? WEBP then "image/webp"
  else "image/jpeg".

Definition toolchain : Toolchain := {| json_short_escapes := true |}.

Definition pkg : PackageMain :=
  {| BimgOptions := spec_BimgOptions image_type;
     ImageType := image_type;
     GetImageMimeType := mime_type |}.

Definition jpeg : bytes := [xff; xd8; xff; xe0].
Definition png : bytes := [x89; x50; x4e; x47].
Definition garbage : bytes := [x41; x42].

(** Request options with only the listed fields set. *)
Definition with_size (w h : Z) : ImageOptions.t :=
  ImageOptions.mk w h 0 0 0 0 0 0 0 0 0 0 0
     false false false false false false false false
     0%N "" "" "" "" "" [] bimg.Color.zero "" "" "".

Definition with_rotate (r : Z) : ImageOptions.t :=
  ImageOptions.mk 0 0 0 0 0 0 r 0 0 0 0 0 0
     false false false false false false false false
     0%N "" "" "" "" "" [] bimg.Color.zero "" "" "".

Definition with_zoom (factor top left aw ah : Z) : ImageOptions.t :=
  ImageOptions.mk 0 0 aw ah 0 0 0 top left 0 factor 0 0
     false false false false false false false false
     0%N "" "" "" "" "" [] bimg.Color.zero "" "" "".

Definition with_type (ty : string) : ImageOptions.t :=
  ImageOptions.mk 0 0 0 0 0 0 0 0 0 0 0 0 0
     false false false false false false false false
     0%N "" "" ty "" "" [] bimg.Color.zero "" "" "".

Definition with_text (text : string) (color : list uint8) : ImageOptions.t :=
  ImageOptions.mk 0 0 0 0 0 0 0 0 0 20 0 150 200
     false false false true false false false false
     1045220557%N text "sans bold 12" "" "" "" color bimg.Color.zero "" "" "".

(** A name between double quotes. *)
Definition quoted (s : string) : string :=
  String quote (s ++ String quote "")%string.

(** The JSON document [Info] produces for the sample JPEG. *)
Definition info_body : string :=
  ("{" ++ quoted "Width (in pixels) of image area to extract/resize." ++ ":640,"
   ++ quoted "height" ++ ":480,"
   ++ quoted "type" ++ ":" ++ quoted "jpeg" ++ ","
   ++ quoted "space" ++ ":" ++ quoted "srgb" ++ ","
   ++ quoted "hasAlpha" ++ ":false,"
   ++ quoted "hasProfile" ++ ":false,"
   ++ quoted "channels" ++ ":3,"
   ++ quoted "orientation" ++ ":1}")%string.

End Sample.

(** ** What the statements below speak about *)

(** A call that returns a bad-input error and never reached the engine. *)
Definition rejects (c : Go (Image * error)) : Prop :=
  exists img msg, c = (Returns (img, Some (NewError msg BadRequest)), []).

(** The engine options of the [bimg.Resize] calls a computation made: the
    options the operation handed to the gateway. *)
Definition gateway_options {A : Type} (c : Go A) : list bimg.Options.t :=
  flat_map (fun call => match call with
                        | CallResize _ opts => [opts]
                        | CallMetadata _ => []
                        end) (calls c).

(** The error [Process] returns after a panic with value [v]: the one its
    deferred closure makes of a non-nil value, and nil after a nil panic,
    for which the closure does nothing. *)
Definition recovered_error (v : PanicValue) : error :=
  match v with
  | PanicNil => None
  | PanicError e => Some e
  | PanicString s => Some (errors_New s)
  | PanicOther _ => Some (errors_New "libvips internal error")
  end.

(** The watermark background the spec describes: made of the first three
    components of the colour when it has at least three, and otherwise the
    background the options already carry. *)
Definition spec_watermark_background (color : list uint8)
    (mapped : bimg.Color.t) : bimg.Color.t :=
  match color with
  | c0 :: c1 :: c2 :: _ => bimg.Color.mk c0 c1 c2
  | _ => mapped
  end.

(** The snapshot [Info] takes of the engine's metadata. *)
Definition ImageInfo_of (meta : bimg.ImageMetadata.t) : ImageInfo.t :=
  {| ImageInfo.Width := bimg.ImageSize.Width (bimg.ImageMetadata.Size meta);
     ImageInfo.Height := bimg.ImageSize.Height (bimg.ImageMetadata.Size meta);
     ImageInfo.Type_ := bimg.ImageMetadata.Type_ meta;
     ImageInfo.Space := bimg.ImageMetadata.Space meta;
     ImageInfo.Alpha := bimg.ImageMetadata.Alpha meta;
     ImageInfo.Profile := bimg.ImageMetadata.Profile meta;
     ImageInfo.Channels := bimg.ImageMetadata.Channels meta;
     ImageInfo.Orientation := bimg.ImageMetadata.Orientation meta |}.

(** The member names the spec gives the JSON document of [Info]. *)
Definition spec_ImageInfo_names : list string :=
  ["width"; "height"; "type"; "space"; "hasAlpha"; "hasProfile"; "channels";
   "orientation"].

(** Two engine option values agree on the fields that no operation of
    [image.go] assigns: the dimensions, quality, compression, force, rotate,
    extend, background, gravity, interpretation and type. *)
Definition same_unwritten_fields (a b : bimg.Options.t) : Prop :=
  bimg.Options.Height a = bimg.Options.Height b
  /\ bimg.Options.Width a = bimg.Options.Width b
  /\ bimg.Options.Quality a = bimg.Options.Quality b
  /\ bimg.Options.Compression a = bimg.Options.Compression b
  /\ bimg.Options.Force a = bimg.Options.Force b
  /\ bimg.Options.Rotate a = bimg.Options.Rotate b
  /\ bimg.Options.Extend a = bimg.Options.Extend b
  /\ bimg.Options.Background a = bimg.Options.Background b
  /\ bimg.Options.Gravity a = bimg.Options.Gravity b
  /\ bimg.Options.Interpretation a = bimg.Options.Interpretation b
  /\ bimg.Options.Type_ a = bimg.Options.Type_ b.

(** A second engine, whose metadata query panics on a buffer that starts
    with a zero byte, whose resize call panics with nil on a buffer that
    starts with the bytes 0 and 2, and which is the sample engine
    otherwise. *)
Module Faulty.

Definition resize (buf : bytes) (opts : bimg.Options.t)
  : Outcome (bytes * error) :=
  match buf with
  | x00 :: x02 :: _ => Panics PanicNil
  | _ => Sample.resize buf opts
  end.

Definition metadata (buf : bytes) : Outcome (bimg.ImageMetadata.t * error) :=
  match buf with
  | x00 :: _ => Panics (PanicString "vips: bad pointer")
  | _ => Sample.metadata buf
  end.

Definition engine : bimg.Engine :=
  {| bimg.Resize := resize;
     bimg.Metadata := metadata;
     bimg.DetermineImageType := Sample.determine |}.

End Faulty.

(** ** The gateway *)

Section Gateway.

Context {engine : bimg.Engine} {pkg : PackageMain}.

(** [Process] in closed form, by the three ways the native call can end. *)
Lemma Process_unfold (buf : bytes) (opts : bimg.Options.t) :
  Process buf opts =
  (match bimg.Resize buf opts with
   | Panics v => Returns (Image_zero, recovered_error v)
   | Returns (_, Some e) => Returns (Image_zero, Some e)
   | Returns (out, None) =>
       Returns (mkImage out (GetImageMimeType (bimg.DetermineImageType out)),
                None)
   end,
   [CallResize buf opts]).
Proof.
  unfold Process, bimg_Resize, defer_recover, bind.
  destruct (bimg.Resize buf opts) as [[out [e|]]|v]; simpl; try reflexivity.
  destruct v; reflexivity.
Qed.

(** Every invocation of the gateway makes exactly one engine call, with the
    buffer and the options it was given. *)
Lemma Process_calls (buf : bytes) (opts : bimg.Options.t) :
  calls (Process buf opts) = [CallResize buf opts].
Proof. rewrite Process_unfold. reflexivity. Qed.

Lemma Process_gateway_options (buf : bytes) (opts : bimg.Options.t) :
  gateway_options (Process buf opts) = [opts].
Proof. unfold gateway_options. rewrite Process_calls. reflexivity. Qed.


Lemma Process_not_rejects (buf : bytes) (opts : bimg.Options.t) :
  ~ rejects (Process buf opts).
Proof.
  intros (img & msg & H).
  apply (f_equal snd) in H. rewrite Process_unfold in H. discriminate H.
Qed.

(** An error from the gateway always comes with the empty image. *)
Lemma Process_error_image (buf : bytes) (opts : bimg.Options.t)
    (img : Image) (e : GoError) (tr : Trace) :
  Process buf opts = (Returns (img, Some e), tr) -> img = Image_zero.
Proof.
  rewrite Process_unfold.
  destruct (bimg.Resize buf opts) as [[out [e'|]]|v]; intros H;
    inversion H; reflexivity.
Qed.

(** C1 (amended).  If the native call inside [Process] panics, the panic
    does not leave [Process]: it returns normally, with the empty image.
    When the panic carries a non-nil value (an error value, a string, or
    any other non-nil value) the error returned is non-nil: the panic's own
    error value, an error made of the panic's string, or the fixed
    "libvips internal error".  After a nil panic, for which [recover()]
    yields nil, the guard of the deferred closure is not entered and the
    error returned is nil. *)
Theorem Process_recovers_panic (buf : bytes) (opts : bimg.Options.t)
    (v : PanicValue) :
  bimg.Resize buf opts = Panics v ->
  exists err : error,
    Process buf opts = (Returns (Image_zero, err), [CallResize buf opts])
    /\ err = recovered_error v
    /\ (v <> PanicNil -> exists e : GoError, err = Some e)
    /\ (v = PanicNil -> err = None).
Proof.
  intros Hpanic. exists (recovered_error v).
  split; [rewrite Process_unfold, Hpanic; reflexivity|].
  split; [reflexivity|]. split.
  - intros Hnonnil. destruct v; try contradiction; eexists; reflexivity.
  - intros ->. reflexivity.
Qed.

(** C3. When the native resize call succeeds, [Process] returns a nil
    error and an image whose body is the buffer the engine returned and
    whose MIME type is [GetImageMimeType] of the type detected on that
    same body; the requested options play no part in it. *)
Theorem Process_success_mime (buf : bytes) (opts : bimg.Options.t)
    (out : bytes) :
  bimg.Resize buf opts = Returns (out, None) ->
  exists img : Image,
    Process buf opts = (Returns (img, None), [CallResize buf opts])
    /\ Body img = out
    /\ Mime img = GetImageMimeType (bimg.DetermineImageType (Body img)).
Proof.
  intros Hok.
  exists (mkImage out (GetImageMimeType (bimg.DetermineImageType out))).
  rewrite Process_unfold, Hok. repeat split.
Qed.

End Gateway.

(** C1 on the sample engine, for a panic that carries a string. *)
Lemma Process_recovers_panic_witness :
  bimg.Resize (Engine := Sample.engine) [x00; x01] bimg.Options.zero
    = Panics (PanicString "vips: bad pointer")
  /\ Process (engine := Sample.engine) (pkg := Sample.pkg)
       [x00; x01] bimg.Options.zero
     = (Returns (Image_zero, Some (errors_New "vips: bad pointer")),
        [CallResize [x00; x01] bimg.Options.zero]).
Proof.
  split; [reflexivity|].
  destruct (Process_recovers_panic (engine := Sample.engine)
              (pkg := Sample.pkg) [x00; x01] bimg.Options.zero
              (PanicString "vips: bad pointer") eq_refl)
    as (err & Hrun & Herr & _).
  rewrite Hrun, Herr. reflexivity.
Defined.

(** C1 as stated fails on a nil panic: the engine panics with nil, and
    [Process] returns the empty image with a nil error. *)
Lemma Process_nil_panic_counterexample :
  ~ (forall (buf : bytes) (opts : bimg.Options.t) (v : PanicValue),
       bimg.Resize (Engine := Faulty.engine) buf opts = Panics v ->
       exists e : GoError,
         Process (engine := Faulty.engine) (pkg := Sample.pkg) buf opts
         = (Returns (Image_zero, Some e), [CallResize buf opts])).
Proof.
  intros Hclaim.
  destruct (Hclaim [x00; x02] bimg.Options.zero PanicNil eq_refl) as (e & He).
  discriminate He.
Qed.

(** C3 on the sample engine: a PNG comes back as [image/png] although the
    request asked for jpeg. *)
Lemma Process_success_mime_witness :
  bimg.Resize (Engine := Sample.engine) Sample.png
    (BimgOptions (PackageMain := Sample.pkg) (Sample.with_type "jpeg"))
  = Returns (Sample.png, None)
  /\ exists img,
       Process (engine := Sample.engine) (pkg := Sample.pkg) Sample.png
         (BimgOptions (PackageMain := Sample.pkg) (Sample.with_type "jpeg"))
       = (Returns (img, None),
          [CallResize Sample.png
             (BimgOptions (PackageMain := Sample.pkg) (Sample.with_type "jpeg"))])
       /\ Body img = Sample.png
       /\ Mime img = GetImageMimeType (PackageMain := Sample.pkg)
                       (bimg.DetermineImageType (Engine := Sample.engine)
                          (Body img))
       /\ Mime img = "image/png".
Proof.
  split; [reflexivity|].
  destruct (Process_success_mime (engine := Sample.engine) (pkg := Sample.pkg)
              Sample.png
              (BimgOptions (PackageMain := Sample.pkg) (Sample.with_type "jpeg"))
              Sample.png eq_refl) as (img & Hrun & Hbody & Hmime).
  exists img. repeat split; try assumption.
  rewrite Hmime, Hbody. reflexivity.
Defined.

(** ** Validation of the operations *)

Lemma bind_ret_l {A B : Type} (a : A) (k : A -> Go B) : bind (ret a) k = k a.
Proof. unfold bind, ret. destruct (k a) as [r t]. reflexivity. Qed.

Lemma rejects_ret (img : Image) (msg : string) :
  rejects (ret (img, Some (NewError msg BadRequest))).
Proof. exists img, msg. reflexivity. Qed.

Create HintDb ops.
#[local] Hint Resolve rejects_ret : ops.

(** Decide the integer tests of a goal, keeping each answer as a fact. *)
Ltac split_tests :=
  repeat match goal with
         | |- context [Z.eqb ?a ?b] => destruct (Z.eqb_spec a b)
         | |- context [Z.gtb ?a ?b] =>
             rewrite (Z.gtb_ltb a b); destruct (Z.ltb_spec b a)
         end; simpl.

Section Validation.

Context {engine : bimg.Engine} {pkg : PackageMain} {go : Toolchain}.

#[local] Hint Resolve Process_not_rejects : ops.

Lemma Resize_rejects (buf : bytes) (o : ImageOptions.t) :
  rejects (Resize buf o)
  <-> ImageOptions.Width o = 0 /\ ImageOptions.Height o = 0.
Proof.
  unfold Resize. split_tests; split; intros H; auto with ops;
    try (exfalso; lia); exfalso; eapply Process_not_rejects; exact H.
Qed.

Lemma Crop_rejects (buf : bytes) (o : ImageOptions.t) :
  rejects (Crop buf o)
  <-> ImageOptions.Width o = 0 /\ ImageOptions.Height o = 0.
Proof.
  unfold Crop. split_tests; split; intros H; auto with ops;
    try (exfalso; lia); exfalso; eapply Process_not_rejects; exact H.
Qed.

Lemma Thumbnail_rejects (buf : bytes) (o : ImageOptions.t) :
  rejects (Thumbnail buf o)
  <-> ImageOptions.Width o = 0 /\ ImageOptions.Height o = 0.
Proof.
  unfold Thumbnail. split_tests; split; intros H; auto with ops;
    try (exfalso; lia); exfalso; eapply Process_not_rejects; exact H.
Qed.

Lemma Enlarge_rejects (buf : bytes) (o : ImageOptions.t) :
  rejects (Enlarge buf o)
  <-> ImageOptions.Width o = 0 \/ ImageOptions.Height o = 0.
Proof.
  unfold Enlarge. split_tests; split; intros H; auto with ops;
    try (exfalso; lia); exfalso; eapply Process_not_rejects; exact H.
Qed.

(** C4 (amended). [Resize], [Crop] and [Thumbnail] return a bad-input error
    without invoking the engine exactly when width = 0 and height = 0;
    [Enlarge] does so exactly when width = 0 or height = 0.  On
    non-negative dimensions this is the failure of "width>0 or height>0",
    respectively of "width>0 and height>0"; a negative dimension is
    nonzero and passes.  With width = 0 and height = 0 all four reject. *)
Theorem size_validation (buf : bytes) (o : ImageOptions.t) :
  let w := ImageOptions.Width o in
  let h := ImageOptions.Height o in
  (rejects (Resize buf o) <-> w = 0 /\ h = 0)
  /\ (rejects (Crop buf o) <-> w = 0 /\ h = 0)
  /\ (rejects (Thumbnail buf o) <-> w = 0 /\ h = 0)
  /\ (rejects (Enlarge buf o) <-> w = 0 \/ h = 0)
  /\ (0 <= w -> 0 <= h ->
      (rejects (Resize buf o) <-> ~ (w > 0 \/ h > 0))
      /\ (rejects (Crop buf o) <-> ~ (w > 0 \/ h > 0))
      /\ (rejects (Thumbnail buf o) <-> ~ (w > 0 \/ h > 0))
      /\ (rejects (Enlarge buf o) <-> ~ (w > 0 /\ h > 0)))
  /\ (w = 0 -> h = 0 ->
      rejects (Resize buf o) /\ rejects (Crop buf o)
      /\ rejects (Thumbnail buf o) /\ rejects (Enlarge buf o)).
Proof.
  intros w h.
  pose proof (Resize_rejects buf o) as HR.
  pose proof (Crop_rejects buf o) as HC.
  pose proof (Thumbnail_rejects buf o) as HT.
  pose proof (Enlarge_rejects buf o) as HE.
  fold w h in HR, HC, HT, HE.
  repeat split; try tauto; try (intros; lia);
    try (intros; apply HR; lia); try (intros; apply HC; lia);
    try (intros; apply HT; lia); try (intros; apply HE; lia);
    intros Hrej.
  - apply HR in Hrej. lia.
  - apply HC in Hrej. lia.
  - apply HT in Hrej. lia.
  - apply HE in Hrej. lia.
Qed.

Lemma Rotate_rejects (buf : bytes) (o : ImageOptions.t) :
  rejects (Rotate buf o) <-> ImageOptions.Rotate o = 0.
Proof.
  unfold Rotate. split_tests; split; intros H; auto with ops;
    try (exfalso; lia); exfalso; eapply Process_not_rejects; exact H.
Qed.

(** C10. [Rotate] returns a bad-input error, without reaching the engine,
    exactly when the rotate option is 0.  Every nonzero rotation passes:
    the gateway is invoked with exactly the mapped options, whatever the
    angle is (no multiple-of-90 test is made). *)
Theorem Rotate_validation (buf : bytes) (o : ImageOptions.t) :
  (rejects (Rotate buf o) <-> ImageOptions.Rotate o = 0)
  /\ (ImageOptions.Rotate o = 0 ->
      Rotate buf o
      = (Returns (Image_zero,
                  Some (NewError "Missing required param: rotate" BadRequest)),
         []))
  /\ (ImageOptions.Rotate o <> 0 ->
      Rotate buf o = Process buf (BimgOptions o)
      /\ calls (Rotate buf o) = [CallResize buf (BimgOptions o)]).
Proof.
  split; [apply Rotate_rejects|].
  unfold Rotate. split_tests; split; intros H; try contradiction;
    try reflexivity.
  split; [reflexivity|apply Process_calls].
Qed.

Lemma Zoom_rejects (buf : bytes) (o : ImageOptions.t) :
  rejects (Zoom buf o)
  <-> ImageOptions.Factor o = 0
      \/ ((ImageOptions.Top o > 0 \/ ImageOptions.Left o > 0)
          /\ ImageOptions.AreaWidth o = 0 /\ ImageOptions.AreaHeight o = 0).
Proof.
  unfold Zoom, Zoom_extract_area.
  split_tests; split; intros Hrej; auto with ops; try lia;
    exfalso; eapply Process_not_rejects; exact Hrej.
Qed.

(** C5. [Zoom] with factor = 0 is a bad-input error whatever the other
    fields are.  With a nonzero factor and top > 0 or left > 0, it is a
    bad-input error when areaWidth = 0 and areaHeight = 0.  The extraction
    rectangle is asked for only when top > 0 or left > 0: otherwise a
    nonzero factor passes validation, and the gateway is invoked with the
    mapped options and the zoom factor, whatever the rectangle is. *)
Theorem Zoom_validation (buf : bytes) (o : ImageOptions.t) :
  (ImageOptions.Factor o = 0 ->
   Zoom buf o
   = (Returns (Image_zero,
               Some (NewError "Missing required param: factor" BadRequest)),
      []))
  /\ (ImageOptions.Factor o <> 0 ->
      ImageOptions.Top o > 0 \/ ImageOptions.Left o > 0 ->
      ImageOptions.AreaWidth o = 0 -> ImageOptions.AreaHeight o = 0 ->
      Zoom buf o
      = (Returns (Image_zero,
                  Some (NewError
                          "Missing required params: areawidth, areaheight"
                          BadRequest)),
         []))
  /\ (ImageOptions.Factor o <> 0 ->
      ~ (ImageOptions.Top o > 0 \/ ImageOptions.Left o > 0) ->
      ~ rejects (Zoom buf o)
      /\ Zoom buf o
         = Process buf (bimg.Options.set_Zoom (ImageOptions.Factor o)
                          (BimgOptions o)))
  /\ (rejects (Zoom buf o)
      <-> ImageOptions.Factor o = 0
          \/ ((ImageOptions.Top o > 0 \/ ImageOptions.Left o > 0)
              /\ ImageOptions.AreaWidth o = 0
              /\ ImageOptions.AreaHeight o = 0)).
Proof.
  repeat split; try apply Zoom_rejects.
  - intros Hf. unfold Zoom. rewrite Hf. reflexivity.
  - intros Hf Horigin Haw Hah. unfold Zoom, Zoom_extract_area.
    rewrite Haw, Hah. split_tests; try reflexivity; exfalso; lia.
  - intros Hrej. apply Zoom_rejects in Hrej. tauto.
  - unfold Zoom, Zoom_extract_area.
    split_tests; try reflexivity; exfalso; lia.
Qed.

(** The two validation messages of [Convert] never coincide. *)
Lemma Convert_messages_differ (t : string) :
  "Missing required param: type" <> ("Invalid image type: " ++ t)%string.
Proof. simpl. discriminate. Qed.

(** C6. [Convert] with the empty type returns the bad-input error
    "Missing required param: type"; with a non-empty type that
    [ImageType] does not recognise it returns the bad-input error
    "Invalid image type: " followed by the type.  The two errors differ,
    and in both cases no engine call is made, so the gateway was not
    invoked. *)
Theorem Convert_validation (buf : bytes) (o : ImageOptions.t) :
  (ImageOptions.Type_ o = "" ->
   Convert buf o
   = (Returns (Image_zero,
               Some (NewError "Missing required param: type" BadRequest)),
      []))
  /\ (ImageOptions.Type_ o <> "" ->
      ImageType (ImageOptions.Type_ o) = bimg.UNKNOWN ->
      Convert buf o
      = (Returns (Image_zero,
                  Some (NewError
                          ("Invalid image type: " ++ ImageOptions.Type_ o)%string
                          BadRequest)),
         []))
  /\ (forall t : string,
        NewError "Missing required param: type" BadRequest
        <> NewError ("Invalid image type: " ++ t)%string BadRequest)
  /\ (forall opts : bimg.Options.t,
        ImageOptions.Type_ o = ""
        \/ ImageType (ImageOptions.Type_ o) = bimg.UNKNOWN ->
        calls (Convert buf o) <> calls (Process buf opts)).
Proof.
  unfold Convert. repeat split.
  - intros Ht. rewrite Ht. reflexivity.
  - intros Ht Hunknown.
    destruct (String.eqb_spec (ImageOptions.Type_ o) ""); [contradiction|].
    rewrite Hunknown. reflexivity.
  - intros t H. exact (Convert_messages_differ t (f_equal Error_ H)).
  - intros opts Hbad. rewrite Process_calls.
    destruct (String.eqb_spec (ImageOptions.Type_ o) ""); [discriminate|].
    destruct Hbad as [Ht|Hunknown]; [contradiction|].
    rewrite Hunknown. discriminate.
Qed.

(** The colour block of [Watermark]: the indexing never goes out of range
    under its guard, and the block amounts to the spec's background. *)
Lemma Watermark_color_block (color : list uint8) (opts : bimg.Options.t) :
  (if len color >? 2 then
     c0 <- slice_index color 0 ;;
     c1 <- slice_index color 1 ;;
     c2 <- slice_index color 2 ;;
     ret (bimg.Options.in_Watermark
            (bimg.Watermark.set_Background (bimg.Color.mk c0 c1 c2)) opts)
   else ret opts)
  = ret (match color with
         | c0 :: c1 :: c2 :: _ =>
             bimg.Options.in_Watermark
               (bimg.Watermark.set_Background (bimg.Color.mk c0 c1 c2)) opts
         | _ => opts
         end).
Proof.
  destruct color as [|c0 [|c1 [|c2 rest]]]; try reflexivity.
  replace (len (c0 :: c1 :: c2 :: rest) >? 2) with true; [reflexivity|].
  symmetry. rewrite Z.gtb_ltb. apply Z.ltb_lt. unfold len. simpl List.length. lia.
Qed.

(** The engine options [Watermark] builds once the text is present. *)
Lemma Watermark_passes (buf : bytes) (o : ImageOptions.t) :
  ImageOptions.Text o <> "" ->
  Watermark buf o
  = Process buf
      (bimg.Options.set_Watermark
         {| bimg.Watermark.Width := ImageOptions.TextWidth o;
            bimg.Watermark.DPI := ImageOptions.DPI o;
            bimg.Watermark.Margin := ImageOptions.Margin o;
            bimg.Watermark.Opacity := ImageOptions.Opacity o;
            bimg.Watermark.NoReplicate := ImageOptions.NoReplicate o;
            bimg.Watermark.Text := ImageOptions.Text o;
            bimg.Watermark.Font := ImageOptions.Font o;
            bimg.Watermark.Background :=
              spec_watermark_background (ImageOptions.Color o)
                (bimg.Watermark.Background
                   (bimg.Options.Watermark (BimgOptions o))) |}
         (BimgOptions o)).
Proof.
  intros Htext. unfold Watermark.
  destruct (String.eqb_spec (ImageOptions.Text o) ""); [contradiction|].
  rewrite Watermark_color_block, bind_ret_l. f_equal.
  destruct (BimgOptions o) as [h w ah aw tp lf q c z cr en em fi fo fr ro ex bg
                                 gr ip [ww wd wmg wo wn wt wf wb] ty].
  destruct (ImageOptions.Color o) as [|c0 [|c1 [|c2 rest]]]; reflexivity.
Qed.

(** C7. [Watermark] with the empty text returns a bad-input error whatever
    the other fields are.  Otherwise it invokes the gateway with the mapped
    options in which the watermark sub-structure holds the request's text,
    font, margin, dpi, width (from textWidth), opacity and noReplicate; its
    background is made of the first three components of the colour exactly
    when the colour has at least three, and is left as mapped when it has
    fewer. *)
Theorem Watermark_options (buf : bytes) (o : ImageOptions.t) :
  (ImageOptions.Text o = "" ->
   Watermark buf o
   = (Returns (Image_zero,
               Some (NewError "Missing required param: text" BadRequest)),
      []))
  /\ (ImageOptions.Text o <> "" ->
      exists opts : bimg.Options.t,
        Watermark buf o = Process buf opts
        /\ gateway_options (Watermark buf o) = [opts]
        /\ bimg.Options.set_Watermark
             (bimg.Options.Watermark (BimgOptions o)) opts = BimgOptions o
        /\ let wm := bimg.Options.Watermark opts in
           bimg.Watermark.Text wm = ImageOptions.Text o
           /\ bimg.Watermark.Font wm = ImageOptions.Font o
           /\ bimg.Watermark.Margin wm = ImageOptions.Margin o
           /\ bimg.Watermark.DPI wm = ImageOptions.DPI o
           /\ bimg.Watermark.Width wm = ImageOptions.TextWidth o
           /\ bimg.Watermark.Opacity wm = ImageOptions.Opacity o
           /\ bimg.Watermark.NoReplicate wm = ImageOptions.NoReplicate o
           /\ (len (ImageOptions.Color o) >= 3 ->
               exists c0 c1 c2 rest,
                 ImageOptions.Color o = c0 :: c1 :: c2 :: rest
                 /\ bimg.Watermark.Background wm = bimg.Color.mk c0 c1 c2)
           /\ (len (ImageOptions.Color o) < 3 ->
               bimg.Watermark.Background wm
               = bimg.Watermark.Background
                   (bimg.Options.Watermark (BimgOptions o)))).
Proof.
  split.
  - intros Htext. unfold Watermark. rewrite Htext. reflexivity.
  - intros Htext. eexists. split; [apply (Watermark_passes buf o Htext)|].
    split; [rewrite (Watermark_passes buf o Htext);
            apply Process_gateway_options|].
    split; [destruct (BimgOptions o); reflexivity|].
    destruct (BimgOptions o) as [h w ah aw tp lf q c z cr en em fi fo fr ro ex bg
                                   gr ip wm0 ty].
    cbn -[len]. repeat (split; [reflexivity|]). split.
    + intros Hlen.
      destruct (ImageOptions.Color o) as [|c0 [|c1 [|c2 rest]]];
        try (exfalso; unfold len in Hlen; simpl in Hlen; lia).
      exists c0, c1, c2, rest. split; reflexivity.
    + intros Hlen.
      destruct (ImageOptions.Color o) as [|c0 [|c1 [|c2 rest]]];
        try reflexivity.
      exfalso. unfold len in Hlen. simpl List.length in Hlen. lia.
Qed.

(** The options [Resize], [Enlarge] and [Zoom] hand to the gateway. *)
Lemma Resize_passes (buf : bytes) (o : ImageOptions.t) :
  ~ (ImageOptions.Width o = 0 /\ ImageOptions.Height o = 0) ->
  Resize buf o
  = Process buf
      (if ImageOptions.NoCrop o
       then bimg.Options.set_Embed true (BimgOptions o)
       else bimg.Options.set_Crop true
              (bimg.Options.set_Embed true (BimgOptions o))).
Proof.
  intros Hsize. unfold Resize.
  split_tests; try (exfalso; lia); destruct (ImageOptions.NoCrop o); reflexivity.
Qed.

Lemma Enlarge_passes (buf : bytes) (o : ImageOptions.t) :
  ~ (ImageOptions.Width o = 0 \/ ImageOptions.Height o = 0) ->
  Enlarge buf o
  = Process buf
      (if ImageOptions.NoCrop o
       then bimg.Options.set_Enlarge true (BimgOptions o)
       else bimg.Options.set_Crop true
              (bimg.Options.set_Enlarge true (BimgOptions o))).
Proof.
  intros Hsize. unfold Enlarge.
  split_tests; try (exfalso; lia); destruct (ImageOptions.NoCrop o); reflexivity.
Qed.

(** C8 (amended).  When [Resize] or [Enlarge] passes its validation, the
    options handed to the gateway have crop = true unless noCrop was
    requested; [Resize] also sets embed = true and [Enlarge] sets
    enlarge = true, and every other field is as mapped.  When [Zoom] passes
    its validation, the options carry zoom = factor, and crop is set to true
    only if an extraction origin is given (top > 0 or left > 0) and noCrop
    was not requested; without an extraction origin, or with noCrop, the
    crop flag is the mapped one. *)
Theorem crop_policy (buf : bytes) (o : ImageOptions.t) :
  (~ (ImageOptions.Width o = 0 /\ ImageOptions.Height o = 0) ->
   exists opts : bimg.Options.t,
     Resize buf o = Process buf opts
     /\ gateway_options (Resize buf o) = [opts]
     /\ bimg.Options.Embed opts = true
     /\ (ImageOptions.NoCrop o = false -> bimg.Options.Crop opts = true)
     /\ (ImageOptions.NoCrop o = true ->
         bimg.Options.Crop opts = bimg.Options.Crop (BimgOptions o))
     /\ bimg.Options.set_Crop (bimg.Options.Crop (BimgOptions o))
          (bimg.Options.set_Embed (bimg.Options.Embed (BimgOptions o)) opts)
        = BimgOptions o)
  /\ (~ (ImageOptions.Width o = 0 \/ ImageOptions.Height o = 0) ->
      exists opts : bimg.Options.t,
        Enlarge buf o = Process buf opts
        /\ gateway_options (Enlarge buf o) = [opts]
        /\ bimg.Options.Enlarge opts = true
        /\ (ImageOptions.NoCrop o = false -> bimg.Options.Crop opts = true)
        /\ (ImageOptions.NoCrop o = true ->
            bimg.Options.Crop opts = bimg.Options.Crop (BimgOptions o))
        /\ bimg.Options.set_Crop (bimg.Options.Crop (BimgOptions o))
             (bimg.Options.set_Enlarge (bimg.Options.Enlarge (BimgOptions o))
                opts)
           = BimgOptions o)
  /\ (ImageOptions.Factor o <> 0 ->
      ~ ((ImageOptions.Top o > 0 \/ ImageOptions.Left o > 0)
         /\ ImageOptions.AreaWidth o = 0 /\ ImageOptions.AreaHeight o = 0) ->
      exists opts : bimg.Options.t,
        Zoom buf o = Process buf opts
        /\ gateway_options (Zoom buf o) = [opts]
        /\ bimg.Options.Zoom opts = ImageOptions.Factor o
        /\ (ImageOptions.Top o > 0 \/ ImageOptions.Left o > 0 ->
            ImageOptions.NoCrop o = false -> bimg.Options.Crop opts = true)
        /\ (~ (ImageOptions.Top o > 0 \/ ImageOptions.Left o > 0) ->
            bimg.Options.Crop opts = bimg.Options.Crop (BimgOptions o))
        /\ (ImageOptions.NoCrop o = true ->
            bimg.Options.Crop opts = bimg.Options.Crop (BimgOptions o))).
Proof.
  split; [|split].
  - intros Hsize. eexists. split; [apply (Resize_passes buf o Hsize)|].
    split; [rewrite (Resize_passes buf o Hsize);
            apply Process_gateway_options|].
    destruct (ImageOptions.NoCrop o), (BimgOptions o);
      repeat split; intros; try discriminate; reflexivity.
  - intros Hsize. eexists. split; [apply (Enlarge_passes buf o Hsize)|].
    split; [rewrite (Enlarge_passes buf o Hsize);
            apply Process_gateway_options|].
    destruct (ImageOptions.NoCrop o), (BimgOptions o);
      repeat split; intros; try discriminate; reflexivity.
  - intros Hfactor Harea. unfold Zoom, Zoom_extract_area.
    destruct (Z.eqb_spec (ImageOptions.Factor o) 0); [contradiction|].
    split_tests; try (exfalso; lia);
      (eexists; split; [reflexivity|];
       split; [apply Process_gateway_options|];
       destruct (ImageOptions.NoCrop o), (BimgOptions o);
       repeat split; intros; try discriminate; try reflexivity;
       exfalso; lia).
Qed.

(** ** Errors and the returned image *)

(** C2 (amended).  Whenever an operation of the catalog other than [Info]
    returns a non-nil error, the image it returns is the empty image.
    [Info] returns, with its error, the image it prepared beforehand: an
    empty body with the JSON content type. *)
Theorem error_image (name : OperationName) (buf : bytes) (o : ImageOptions.t)
    (img : Image) (e : GoError) (tr : Trace) :
  Run (catalog name) buf o = (Returns (img, Some e), tr) ->
  img = match name with
        | info => mkImage [] "application/json"
        | _ => Image_zero
        end.
Proof.
  unfold Run.
  destruct name; simpl;
    [ unfold Info, bimg_Metadata, bind;
      destruct (bimg.Metadata buf) as [[meta [e'|]]|v]; simpl
    | unfold Resize | unfold Enlarge | unfold Extract | unfold Crop
    | unfold Rotate | unfold Flip | unfold Flop | unfold Thumbnail
    | unfold Zoom, Zoom_extract_area | unfold Convert
    | unfold Watermark; rewrite Watermark_color_block, bind_ret_l ];
    repeat match goal with
           | |- context [if ?c then _ else _] => destruct c
           end;
    intros H;
    solve [ inversion H; reflexivity
          | eapply Process_error_image; exact H ].
Qed.

(** ** The metadata document *)

(** On a successful metadata query [Info] returns the JSON content type and
    the serialization of the snapshot of the engine's metadata. *)
Lemma Info_success (buf : bytes) (o : ImageOptions.t)
    (meta : bimg.ImageMetadata.t) :
  bimg.Metadata buf = Returns (meta, None) ->
  Info buf o
  = (Returns (mkImage
                (list_byte_of_string
                   (json_object (ImageInfo_members (ImageInfo_of meta))))
                "application/json", None),
     [CallMetadata buf]).
Proof.
  intros Hmeta. unfold Info, bimg_Metadata, bind. rewrite Hmeta. reflexivity.
Qed.

(** C9 (what the code does).  On a successful metadata query [Info] returns
    the JSON content type and the serialization of the engine's metadata, in
    which the width is written under the member name
    "Width (in pixels) of image area to extract/resize." and no member is
    named "width"; the other seven members have the names of the spec. *)
Theorem Info_member_names (buf : bytes) (o : ImageOptions.t)
    (meta : bimg.ImageMetadata.t) :
  bimg.Metadata buf = Returns (meta, None) ->
  exists doc : JSONObject,
    Info buf o
    = (Returns (mkImage (list_byte_of_string (json_object doc))
                  "application/json", None),
       [CallMetadata buf])
    /\ map snd doc = map snd (ImageInfo_members (ImageInfo_of meta))
    /\ map fst doc
       = "Width (in pixels) of image area to extract/resize."
           :: tl spec_ImageInfo_names
    /\ ~ In "width" (map fst doc)
    /\ map fst doc <> spec_ImageInfo_names.
Proof.
  intros Hmeta. exists (ImageInfo_members (ImageInfo_of meta)).
  split; [apply (Info_success buf o meta Hmeta)|].
  repeat split; simpl.
  - intros Hin. repeat (destruct Hin as [Hin|Hin]; [discriminate Hin|]).
    exact Hin.
  - unfold spec_ImageInfo_names. discriminate.
Qed.

End Validation.

(** ** The theorems on the sample engine *)

(** C4 on concrete sizes: 0 x 0 is rejected by the four operations. *)
Lemma size_validation_witness :
  (0 <= ImageOptions.Width (Sample.with_size 0 0) /\ 0 <= ImageOptions.Height (Sample.with_size 0 0))
  /\ (rejects (Resize (engine := Sample.engine) (pkg := Sample.pkg) Sample.jpeg (Sample.with_size 0 0))
      <-> ~ (ImageOptions.Width (Sample.with_size 0 0) > 0 \/ ImageOptions.Height (Sample.with_size 0 0) > 0))
  /\ rejects (Resize (engine := Sample.engine) (pkg := Sample.pkg) Sample.jpeg (Sample.with_size 0 0))
  /\ rejects (Enlarge (engine := Sample.engine) (pkg := Sample.pkg) Sample.jpeg (Sample.with_size 0 0)).
Proof.
  set (o := Sample.with_size 0 0).
  destruct (size_validation (engine := Sample.engine) (pkg := Sample.pkg)
              Sample.jpeg o) as (_ & _ & _ & _ & Hnonneg & Hzero).
  split; [split; simpl; lia|].
  destruct (Hnonneg ltac:(simpl; lia) ltac:(simpl; lia)) as (HR & _).
  destruct (Hzero eq_refl eq_refl) as (HR0 & _ & _ & HE0).
  split; [exact HR|]. split; [exact HR0|exact HE0].
Defined.

(** C4 as stated fails on a negative width: "width>0 or height>0" is false
    at width = -1, height = 0, and [Resize] does not reject but calls the
    engine. *)
Lemma size_validation_counterexample :
  ~ (rejects (Resize (engine := Sample.engine) (pkg := Sample.pkg) Sample.jpeg (Sample.with_size (-1) 0))
     <-> ~ (ImageOptions.Width (Sample.with_size (-1) 0) > 0 \/ ImageOptions.Height (Sample.with_size (-1) 0) > 0)).
Proof.
  set (o := Sample.with_size (-1) 0). intros [_ Hrej].
  destruct Hrej as (img & msg & Heq); [simpl; lia|].
  vm_compute in Heq. discriminate Heq.
Qed.

(** C10 on 45 degrees: not rejected, and the engine receives the mapped
    angle 45. *)
Lemma Rotate_validation_witness :
  ImageOptions.Rotate (Sample.with_rotate 45) <> 0
  /\ Rotate (engine := Sample.engine) (pkg := Sample.pkg) Sample.jpeg (Sample.with_rotate 45)
     = Process (engine := Sample.engine) (pkg := Sample.pkg) Sample.jpeg
         (BimgOptions (PackageMain := Sample.pkg) (Sample.with_rotate 45))
  /\ calls (Rotate (engine := Sample.engine) (pkg := Sample.pkg) Sample.jpeg (Sample.with_rotate 45))
     = [CallResize Sample.jpeg (BimgOptions (PackageMain := Sample.pkg) (Sample.with_rotate 45))]
  /\ bimg.Options.Rotate (BimgOptions (PackageMain := Sample.pkg) (Sample.with_rotate 45)) = 45.
Proof.
  set (o := Sample.with_rotate 45).
  assert (Hnz : ImageOptions.Rotate o <> 0) by (simpl; lia).
  destruct (Rotate_validation (engine := Sample.engine) (pkg := Sample.pkg)
              Sample.jpeg o) as (_ & _ & Hpass).
  destruct (Hpass Hnz) as (Hprocess & Hcalls).
  split; [exact Hnz|]. split; [exact Hprocess|]. split; [exact Hcalls|].
  reflexivity.
Defined.

(** C5 on three requests: factor 0; factor 2 with top 10 and no area;
    factor 2 with no origin and no area. *)
Lemma Zoom_validation_witness :
  rejects (Zoom (engine := Sample.engine) (pkg := Sample.pkg) Sample.jpeg
             (Sample.with_zoom 0 10 10 50 50))
  /\ rejects (Zoom (engine := Sample.engine) (pkg := Sample.pkg) Sample.jpeg
                (Sample.with_zoom 2 10 0 0 0))
  /\ ~ rejects (Zoom (engine := Sample.engine) (pkg := Sample.pkg) Sample.jpeg
                  (Sample.with_zoom 2 0 0 0 0)).
Proof.
  split; [|split].
  - destruct (Zoom_validation (engine := Sample.engine) (pkg := Sample.pkg)
                Sample.jpeg (Sample.with_zoom 0 10 10 50 50)) as (H0 & _).
    rewrite (H0 eq_refl). apply rejects_ret.
  - destruct (Zoom_validation (engine := Sample.engine) (pkg := Sample.pkg)
                Sample.jpeg (Sample.with_zoom 2 10 0 0 0)) as (_ & Harea & _).
    rewrite (Harea ltac:(simpl; lia) ltac:(simpl; lia) eq_refl eq_refl).
    apply rejects_ret.
  - destruct (Zoom_validation (engine := Sample.engine) (pkg := Sample.pkg)
                Sample.jpeg (Sample.with_zoom 2 0 0 0 0)) as (_ & _ & Hfree & _).
    exact (proj1 (Hfree ltac:(simpl; lia) ltac:(simpl; lia))).
Defined.

(** C6 on the empty type and on the unrecognised type "bmp". *)
Lemma Convert_validation_witness :
  Convert (engine := Sample.engine) (pkg := Sample.pkg) Sample.jpeg
    (Sample.with_type "")
  = (Returns (Image_zero,
              Some (NewError "Missing required param: type" BadRequest)), [])
  /\ Convert (engine := Sample.engine) (pkg := Sample.pkg) Sample.jpeg
       (Sample.with_type "bmp")
     = (Returns (Image_zero,
                 Some (NewError "Invalid image type: bmp" BadRequest)), []).
Proof.
  split.
  - destruct (Convert_validation (engine := Sample.engine) (pkg := Sample.pkg)
                Sample.jpeg (Sample.with_type "")) as (Hmissing & _).
    exact (Hmissing eq_refl).
  - destruct (Convert_validation (engine := Sample.engine) (pkg := Sample.pkg)
                Sample.jpeg (Sample.with_type "bmp")) as (_ & Hinvalid & _).
    apply Hinvalid; [simpl; discriminate|reflexivity].
Defined.

(** C7 on a text with a four-component colour, whose first three make the
    background, and with a two-component colour, which leaves the mapped
    (zero) background. *)
Lemma Watermark_options_witness :
  (ImageOptions.Text (Sample.with_text "copyright" [x0a; x14; x1e; x28]) <> ""
   /\ exists opts : bimg.Options.t,
        gateway_options
          (Watermark (engine := Sample.engine) (pkg := Sample.pkg) Sample.png
             (Sample.with_text "copyright" [x0a; x14; x1e; x28]))
        = [opts]
        /\ bimg.Watermark.Text (bimg.Options.Watermark opts) = "copyright"
        /\ bimg.Watermark.Width (bimg.Options.Watermark opts) = 200
        /\ bimg.Watermark.Background (bimg.Options.Watermark opts)
           = bimg.Color.mk x0a x14 x1e)
  /\ (exists opts : bimg.Options.t,
        gateway_options
          (Watermark (engine := Sample.engine) (pkg := Sample.pkg) Sample.png
             (Sample.with_text "copyright" [x0a; x14]))
        = [opts]
        /\ bimg.Watermark.Background (bimg.Options.Watermark opts)
           = bimg.Color.zero).
Proof.
  split.
  - set (o := Sample.with_text "copyright" [x0a; x14; x1e; x28]).
    assert (Htext : ImageOptions.Text o <> "") by (simpl; discriminate).
    split; [exact Htext|].
    destruct (Watermark_options (engine := Sample.engine) (pkg := Sample.pkg)
                Sample.png o) as (_ & Hpass).
    destruct (Hpass Htext)
      as (opts & _ & Hopts & _ & Ht & _ & _ & _ & Hw & _ & _ & Hbg & _).
    exists opts. split; [exact Hopts|]. split; [exact Ht|]. split; [exact Hw|].
    destruct (Hbg ltac:(vm_compute; discriminate))
      as (c0 & c1 & c2 & rest & Hcolor & Hback).
    rewrite Hback. simpl in Hcolor. injection Hcolor as <- <- <- _. reflexivity.
  - set (o := Sample.with_text "copyright" [x0a; x14]).
    assert (Htext : ImageOptions.Text o <> "") by (simpl; discriminate).
    destruct (Watermark_options (engine := Sample.engine) (pkg := Sample.pkg)
                Sample.png o) as (_ & Hpass).
    destruct (Hpass Htext)
      as (opts & _ & Hopts & _ & _ & _ & _ & _ & _ & _ & _ & _ & Hshort).
    exists opts. split; [exact Hopts|].
    rewrite (Hshort ltac:(vm_compute; reflexivity)). reflexivity.
Defined.

(** C8 on a resize and on a zoom with an extraction origin. *)
Lemma crop_policy_witness :
  (exists opts : bimg.Options.t,
     gateway_options
       (Resize (engine := Sample.engine) (pkg := Sample.pkg) Sample.jpeg
          (Sample.with_size 100 0)) = [opts]
     /\ bimg.Options.Embed opts = true /\ bimg.Options.Crop opts = true)
  /\ (exists opts : bimg.Options.t,
        gateway_options
          (Zoom (engine := Sample.engine) (pkg := Sample.pkg) Sample.jpeg
             (Sample.with_zoom 2 10 10 50 50)) = [opts]
        /\ bimg.Options.Zoom opts = 2 /\ bimg.Options.Crop opts = true).
Proof.
  split.
  - destruct (crop_policy (engine := Sample.engine) (pkg := Sample.pkg)
                Sample.jpeg (Sample.with_size 100 0)) as (HR & _).
    destruct (HR ltac:(simpl; lia)) as (opts & _ & Hopts & Hembed & Hcrop & _).
    exists opts. split; [exact Hopts|]. split; [exact Hembed|].
    exact (Hcrop eq_refl).
  - destruct (crop_policy (engine := Sample.engine) (pkg := Sample.pkg)
                Sample.jpeg (Sample.with_zoom 2 10 10 50 50)) as (_ & _ & HZ).
    destruct (HZ ltac:(simpl; lia) ltac:(simpl; lia))
      as (opts & _ & Hopts & Hzoom & Hcrop & _).
    exists opts. split; [exact Hopts|]. split; [exact Hzoom|].
    exact (Hcrop ltac:(simpl; lia) eq_refl).
Defined.

(** C8 as stated fails for [Zoom] without an extraction origin: factor 2,
    top = left = 0 and noCrop not requested passes validation, and the
    options that reach the gateway have crop = false. *)
Lemma crop_policy_Zoom_counterexample :
  ~ (forall (buf : bytes) (o : ImageOptions.t) (opts : bimg.Options.t),
       gateway_options
         (Zoom (engine := Sample.engine) (pkg := Sample.pkg) buf o) = [opts] ->
       ImageOptions.NoCrop o = false ->
       bimg.Options.Crop opts = true).
Proof.
  intros Hclaim.
  specialize (Hclaim Sample.jpeg (Sample.with_zoom 2 0 0 0 0) _ eq_refl eq_refl).
  discriminate Hclaim.
Qed.

(** C2 on a resize the engine refuses, and on [Info] for the same buffer. *)
Lemma error_image_witness :
  (exists (img : Image) (e : GoError) (tr : Trace),
     Run (catalog (engine := Sample.engine) (pkg := Sample.pkg)
         (go := Sample.toolchain) resize)
       Sample.garbage (Sample.with_size 100 0)
     = (Returns (img, Some e), tr)
     /\ e = ForeignError "Unsupported image format"
     /\ img = Image_zero)
  /\ (exists (img : Image) (e : GoError) (tr : Trace),
        Run (catalog (engine := Sample.engine) (pkg := Sample.pkg)
         (go := Sample.toolchain) info)
          Sample.garbage ImageOptions.zero
        = (Returns (img, Some e), tr)
        /\ img = mkImage [] "application/json").
Proof.
  split.
  - destruct (Run (catalog (engine := Sample.engine) (pkg := Sample.pkg)
         (go := Sample.toolchain) resize)
                Sample.garbage (Sample.with_size 100 0))
      as [[[img [e|]]|v] tr] eqn:Hrun; try (vm_compute in Hrun; discriminate Hrun).
    exists img, e, tr. split; [reflexivity|]. split.
    + vm_compute in Hrun. congruence.
    + exact (error_image (engine := Sample.engine) (pkg := Sample.pkg) (go := Sample.toolchain) resize
               Sample.garbage (Sample.with_size 100 0) img e tr Hrun).
  - destruct (Run (catalog (engine := Sample.engine) (pkg := Sample.pkg)
         (go := Sample.toolchain) info)
                Sample.garbage ImageOptions.zero)
      as [[[img [e|]]|v] tr] eqn:Hrun; try (vm_compute in Hrun; discriminate Hrun).
    exists img, e, tr. split; [reflexivity|].
    exact (error_image (engine := Sample.engine) (pkg := Sample.pkg) (go := Sample.toolchain) info
             Sample.garbage ImageOptions.zero img e tr Hrun).
Defined.

(** C2 as stated fails for [Info]: on a buffer whose metadata cannot be
    read it returns a non-nil error together with an image whose MIME type
    is "application/json", not the empty image. *)
Lemma error_image_Info_counterexample :
  ~ (forall (name : OperationName) (buf : bytes) (o : ImageOptions.t)
            (img : Image) (e : GoError) (tr : Trace),
       Run (catalog (engine := Sample.engine) (pkg := Sample.pkg)
         (go := Sample.toolchain) name) buf o
       = (Returns (img, Some e), tr) ->
       img = Image_zero).
Proof.
  intros Hclaim.
  specialize (Hclaim info Sample.garbage ImageOptions.zero _ _ _ eq_refl).
  discriminate Hclaim.
Qed.

(** C9 on the sample JPEG: the document [Info] returns, byte for byte. *)
Lemma Info_member_names_witness :
  bimg.Metadata (Engine := Sample.engine) Sample.jpeg
  = Returns (bimg.ImageMetadata.mk 1 3 false false "jpeg" "srgb"
               (bimg.ImageSize.mk 640 480), None)
  /\ exists doc : JSONObject,
       Info (engine := Sample.engine) (go := Sample.toolchain)
         Sample.jpeg ImageOptions.zero
       = (Returns (mkImage
                     (list_byte_of_string
                        (json_object (go := Sample.toolchain) doc))
                     "application/json", None),
          [CallMetadata Sample.jpeg])
       /\ json_object (go := Sample.toolchain) doc = Sample.info_body
       /\ ~ In "width" (map fst doc).
Proof.
  split; [reflexivity|].
  destruct (Info_member_names (engine := Sample.engine)
              (go := Sample.toolchain) Sample.jpeg ImageOptions.zero
              (bimg.ImageMetadata.mk 1 3 false false "jpeg" "srgb"
                 (bimg.ImageSize.mk 640 480)) eq_refl)
    as (doc & Hinfo & Hvalues & Hnames & Hnowidth & _).
  exists doc. split; [exact Hinfo|]. split; [|exact Hnowidth].
  assert (Hrun : Info (engine := Sample.engine) (go := Sample.toolchain)
                   Sample.jpeg ImageOptions.zero
                 = (Returns (mkImage (list_byte_of_string Sample.info_body)
                               "application/json", None),
                    [CallMetadata Sample.jpeg]))
    by (vm_compute; reflexivity).
  assert (Hbody : list_byte_of_string
                    (json_object (go := Sample.toolchain) doc)
                  = list_byte_of_string Sample.info_body) by congruence.
  rewrite <- (string_of_list_byte_of_string
                (json_object (go := Sample.toolchain) doc)), Hbody.
  apply string_of_list_byte_of_string.
Defined.

(** ** Further properties of the gateway and of [Info] *)

Section Boundaries.

Context {engine : bimg.Engine} {pkg : PackageMain} {go : Toolchain}.

(** X1. When the native resize call returns an error, [Process] hands that
    same error value back, unchanged and not reclassified, together with the
    empty image: the buffer that came with the error is dropped. *)
Theorem Process_engine_error (buf : bytes) (opts : bimg.Options.t)
    (out : bytes) (e : GoError) :
  bimg.Resize buf opts = Returns (out, Some e) ->
  Process buf opts = (Returns (Image_zero, Some e), [CallResize buf opts]).
Proof. intros Herr. rewrite Process_unfold, Herr. reflexivity. Qed.


(** [Info] in closed form, by the ways the metadata query can end. *)
Lemma Info_unfold (buf : bytes) (o : ImageOptions.t) :
  Info buf o =
  (match bimg.Metadata buf with
   | Panics v => Panics v
   | Returns (_, Some e) =>
       Returns (mkImage [] "application/json",
                Some (NewError
                        ("Cannot retrieve image medatata: %s" ++ Error_ e)%string
                        BadRequest))
   | Returns (meta, None) =>
       Returns (mkImage
                  (list_byte_of_string
                     (json_object (ImageInfo_members (ImageInfo_of meta))))
                  "application/json", None)
   end,
   [CallMetadata buf]).
Proof.
  unfold Info, bimg_Metadata, bind.
  destruct (bimg.Metadata buf) as [[meta [e|]]|v]; reflexivity.
Qed.

(** X3. When the metadata query returns an error, [Info] returns a
    bad-input error whose message is the fixed text
    "Cannot retrieve image medatata: %s" (the "%s" is not substituted)
    followed by the engine's message; the metadata that came with the error
    is not used, and the query was the only engine call. *)
Theorem Info_metadata_error (buf : bytes) (o : ImageOptions.t)
    (meta : bimg.ImageMetadata.t) (e : GoError) :
  bimg.Metadata buf = Returns (meta, Some e) ->
  exists err : GoError,
    Info buf o
    = (Returns (mkImage [] "application/json", Some err), [CallMetadata buf])
    /\ err = NewError
               ("Cannot retrieve image medatata: %s" ++ Error_ e)%string
               BadRequest.
Proof.
  intros Herr. eexists. split; [rewrite Info_unfold, Herr; reflexivity|].
  reflexivity.
Qed.


End Boundaries.

(** ** Properties of the whole catalog *)

Lemma OperationName_eq_info (name : OperationName) :
  name = info \/ name <> info.
Proof. destruct name; (left; reflexivity) || (right; discriminate). Qed.

Section Catalog.

Context {engine : bimg.Engine} {pkg : PackageMain} {go : Toolchain}.

(** Every operation but [Info] either stops at its validation with a
    bad-input error, or is one call of the gateway on the input buffer with
    options that agree with the mapped ones on the unwritten fields. *)
Lemma catalog_cases (name : OperationName) (buf : bytes) (o : ImageOptions.t) :
  name <> info ->
  (exists msg : string,
     catalog name buf o
     = (Returns (Image_zero, Some (NewError msg BadRequest)), []))
  \/ (exists opts : bimg.Options.t,
        catalog name buf o = Process buf opts
        /\ same_unwritten_fields opts (BimgOptions o)).
Proof.
  intros Hname.
  destruct name; try contradiction; simpl;
    [ unfold Resize | unfold Enlarge | unfold Extract | unfold Crop
    | unfold Rotate | unfold Flip | unfold Flop | unfold Thumbnail
    | unfold Zoom, Zoom_extract_area | unfold Convert
    | unfold Watermark; rewrite Watermark_color_block, bind_ret_l ];
    repeat match goal with
           | |- context [if ?c then _ else _] => destruct c
           end;
    try (left; eexists; reflexivity);
    right; eexists; (split; [reflexivity|]);
    destruct (BimgOptions o); try destruct (ImageOptions.Color o) as [|c0 [|c1 [|c2 rest]]];
    repeat split.
Qed.


(** X6. An operation makes at most one engine call, always on the buffer it
    was given: [Info] makes exactly one metadata query and never a resize
    call; every other operation makes no call or exactly one resize call,
    and never a metadata query. *)
Theorem catalog_engine_calls (name : OperationName) (buf : bytes)
    (o : ImageOptions.t) :
  match name with
  | info => calls (Run (catalog name) buf o) = [CallMetadata buf]
  | _ => calls (Run (catalog name) buf o) = []
         \/ exists opts : bimg.Options.t,
              calls (Run (catalog name) buf o) = [CallResize buf opts]
  end.
Proof.
  unfold Run.
  assert (Hother : name <> info ->
                   calls (catalog name buf o) = []
                   \/ exists opts : bimg.Options.t,
                        calls (catalog name buf o) = [CallResize buf opts]).
  { intros Hname.
    destruct (catalog_cases name buf o Hname) as [(msg & ->)|(opts & -> & _)];
      [left; reflexivity|right; exists opts; apply Process_calls]. }
  destruct name; try (apply Hother; discriminate).
  simpl. rewrite Info_unfold. reflexivity.
Qed.

(** X7. An operation that made no engine call returned a bad-input error
    with the empty image; so a nil error is never returned without a call:
    it comes with exactly one engine call. *)
Theorem catalog_no_call_is_rejection (name : OperationName) (buf : bytes)
    (o : ImageOptions.t) :
  (calls (Run (catalog name) buf o) = [] ->
   exists msg : string,
     Run (catalog name) buf o
     = (Returns (Image_zero, Some (NewError msg BadRequest)), []))
  /\ (forall (img : Image) (tr : Trace),
        Run (catalog name) buf o = (Returns (img, None), tr) ->
        List.length tr = 1%nat).
Proof.
  unfold Run. destruct (OperationName_eq_info name) as [->|Hname].
  - simpl. rewrite Info_unfold. split.
    + intros Hcalls. discriminate Hcalls.
    + intros img tr H. injection H as _ <-. reflexivity.
  - destruct (catalog_cases name buf o Hname) as [(msg & ->)|(opts & -> & _)].
    + split; [intros _; exists msg; reflexivity|].
      intros img tr H. discriminate H.
    + split.
      * rewrite Process_calls. intros Hcalls. discriminate Hcalls.
      * intros img tr H. apply (f_equal snd) in H.
        rewrite Process_unfold in H. simpl in H. subst tr. reflexivity.
Qed.

(** X8. When an operation other than [Info] returns a nil error, it made
    exactly one resize call on its buffer, and either the engine answered
    that call with the body of the returned image and a nil error, the MIME
    type of the image being the one of the type detected on that body, or
    the call panicked with nil and the image is the empty one. *)
Theorem catalog_success_image (name : OperationName) (buf : bytes)
    (o : ImageOptions.t) (img : Image) (tr : Trace) :
  name <> info ->
  Run (catalog name) buf o = (Returns (img, None), tr) ->
  exists opts : bimg.Options.t,
    tr = [CallResize buf opts]
    /\ ((bimg.Resize buf opts = Returns (Body img, None)
         /\ Mime img = GetImageMimeType (bimg.DetermineImageType (Body img)))
        \/ (bimg.Resize buf opts = Panics PanicNil /\ img = Image_zero)).
Proof.
  intros Hname. unfold Run.
  destruct (catalog_cases name buf o Hname) as [(msg & ->)|(opts & -> & _)];
    [discriminate|].
  rewrite Process_unfold.
  destruct (bimg.Resize buf opts) as [[out [e|]]|[|e|s|z]] eqn:Hres; intros H;
    try discriminate H; injection H as <- <-; exists opts;
    (split; [reflexivity|]); [left|right]; split; reflexivity || exact Hres.
Qed.

(** X9. No operation overrides the dimensions, quality, compression, force,
    rotate, extend, background, gravity, interpretation or type chosen by
    the mapper: the options that reach the engine agree with the mapped
    options on all of these. *)
Theorem catalog_keeps_mapped_fields (name : OperationName) (buf : bytes)
    (o : ImageOptions.t) (opts : bimg.Options.t) :
  In opts (gateway_options (Run (catalog name) buf o)) ->
  same_unwritten_fields opts (BimgOptions o).
Proof.
  unfold Run. destruct (OperationName_eq_info name) as [->|Hname].
  - unfold gateway_options. simpl. rewrite Info_unfold. simpl. contradiction.
  - destruct (catalog_cases name buf o Hname)
      as [(msg & ->)|(opts' & -> & Hsame)].
    + unfold gateway_options. simpl. contradiction.
    + rewrite Process_gateway_options. intros [<-|[]]. exact Hsame.
Qed.

End Catalog.

(** ** The operations the validation theorems leave out *)

Section Overrides.

Context {engine : bimg.Engine} {pkg : PackageMain}.

Lemma Extract_rejects (buf : bytes) (o : ImageOptions.t) :
  rejects (Extract buf o)
  <-> ImageOptions.AreaWidth o = 0 \/ ImageOptions.AreaHeight o = 0.
Proof.
  unfold Extract. split_tests; split; intros Hrej; auto with ops; try lia;
    exfalso; eapply Process_not_rejects; exact Hrej.
Qed.

(** X10. [Extract] returns a bad-input error without reaching the engine
    exactly when areaWidth = 0 or areaHeight = 0, and the error is then
    "Missing required params: areawidth or areaheight"; top and left are
    not validated. *)
Theorem Extract_validation (buf : bytes) (o : ImageOptions.t) :
  (rejects (Extract buf o)
   <-> ImageOptions.AreaWidth o = 0 \/ ImageOptions.AreaHeight o = 0)
  /\ (ImageOptions.AreaWidth o = 0 \/ ImageOptions.AreaHeight o = 0 ->
      Extract buf o
      = (Returns (Image_zero,
                  Some (NewError
                          "Missing required params: areawidth or areaheight"
                          BadRequest)),
         [])).
Proof.
  split; [apply Extract_rejects|].
  unfold Extract. split_tests; intros Harea; try reflexivity; exfalso; lia.
Qed.

(** X11. When both area dimensions are nonzero, [Extract] hands the gateway
    the mapped options with top, left, areaWidth and areaHeight taken from
    the request as they are (a zero or negative origin included) and every
    other field as mapped. *)
Theorem Extract_options (buf : bytes) (o : ImageOptions.t) :
  ImageOptions.AreaWidth o <> 0 -> ImageOptions.AreaHeight o <> 0 ->
  exists opts : bimg.Options.t,
    Extract buf o = Process buf opts
    /\ gateway_options (Extract buf o) = [opts]
    /\ bimg.Options.Top opts = ImageOptions.Top o
    /\ bimg.Options.Left opts = ImageOptions.Left o
    /\ bimg.Options.AreaWidth opts = ImageOptions.AreaWidth o
    /\ bimg.Options.AreaHeight opts = ImageOptions.AreaHeight o
    /\ bimg.Options.set_AreaHeight (bimg.Options.AreaHeight (BimgOptions o))
         (bimg.Options.set_AreaWidth (bimg.Options.AreaWidth (BimgOptions o))
            (bimg.Options.set_Left (bimg.Options.Left (BimgOptions o))
               (bimg.Options.set_Top (bimg.Options.Top (BimgOptions o)) opts)))
       = BimgOptions o.
Proof.
  intros Hw Hh. unfold Extract. split_tests; try contradiction.
  eexists. split; [reflexivity|]. split; [apply Process_gateway_options|].
  destruct (BimgOptions o); repeat split.
Qed.

(** X12. The area rule of [Zoom] is weaker than the one of [Extract]: a
    request with a nonzero factor that [Zoom] rejects is rejected by
    [Extract] too, while a request with an extraction origin and exactly one
    zero area dimension is rejected by [Extract] and accepted by [Zoom]. *)
Theorem Zoom_Extract_area (buf : bytes) (o : ImageOptions.t) :
  ImageOptions.Factor o <> 0 ->
  (rejects (Zoom buf o) -> rejects (Extract buf o))
  /\ (ImageOptions.Top o > 0 \/ ImageOptions.Left o > 0 ->
      (ImageOptions.AreaWidth o = 0 /\ ImageOptions.AreaHeight o <> 0)
      \/ (ImageOptions.AreaWidth o <> 0 /\ ImageOptions.AreaHeight o = 0) ->
      rejects (Extract buf o) /\ ~ rejects (Zoom buf o)).
Proof.
  intros Hfactor. split.
  - intros Hzoom. apply Zoom_rejects in Hzoom. apply Extract_rejects. lia.
  - intros Horigin Hone. split; [apply Extract_rejects; lia|].
    intros Hzoom. apply Zoom_rejects in Hzoom. lia.
Qed.

(** X13. What [Zoom] does with the extraction rectangle once it passes its
    validation.  With an origin (top > 0 or left > 0) the four rectangle
    fields reach the engine as requested, a zero area dimension included.
    Without an origin the rectangle of the request is ignored: the four
    fields reach the engine as mapped, whatever areaWidth and areaHeight
    are. *)
Theorem Zoom_rectangle (buf : bytes) (o : ImageOptions.t) :
  ImageOptions.Factor o <> 0 ->
  ~ ((ImageOptions.Top o > 0 \/ ImageOptions.Left o > 0)
     /\ ImageOptions.AreaWidth o = 0 /\ ImageOptions.AreaHeight o = 0) ->
  exists opts : bimg.Options.t,
    gateway_options (Zoom buf o) = [opts]
    /\ (ImageOptions.Top o > 0 \/ ImageOptions.Left o > 0 ->
        bimg.Options.Top opts = ImageOptions.Top o
        /\ bimg.Options.Left opts = ImageOptions.Left o
        /\ bimg.Options.AreaWidth opts = ImageOptions.AreaWidth o
        /\ bimg.Options.AreaHeight opts = ImageOptions.AreaHeight o)
    /\ (~ (ImageOptions.Top o > 0 \/ ImageOptions.Left o > 0) ->
        bimg.Options.Top opts = bimg.Options.Top (BimgOptions o)
        /\ bimg.Options.Left opts = bimg.Options.Left (BimgOptions o)
        /\ bimg.Options.AreaWidth opts = bimg.Options.AreaWidth (BimgOptions o)
        /\ bimg.Options.AreaHeight opts
           = bimg.Options.AreaHeight (BimgOptions o)).
Proof.
  intros Hfactor Harea. unfold Zoom, Zoom_extract_area.
  destruct (Z.eqb_spec (ImageOptions.Factor o) 0); [contradiction|].
  split_tests; try (exfalso; lia);
    (eexists; split; [apply Process_gateway_options|];
     destruct (ImageOptions.NoCrop o), (BimgOptions o);
     repeat split; intros; try reflexivity; exfalso; lia).
Qed.

Lemma Convert_rejects (buf : bytes) (o : ImageOptions.t) :
  rejects (Convert buf o)
  <-> ImageOptions.Type_ o = ""
      \/ ImageType (ImageOptions.Type_ o) = bimg.UNKNOWN.
Proof.
  unfold Convert.
  destruct (String.eqb_spec (ImageOptions.Type_ o) "");
    [split; auto with ops|].
  split_tests; split; intros Hrej; auto with ops; try tauto.
  exfalso; eapply Process_not_rejects; exact Hrej.
Qed.

(** X14. [Convert] returns a bad-input error without reaching the engine
    exactly when the type is empty or [ImageType] does not recognise it;
    with a recognised type the gateway receives the mapped options with no
    override at all. *)
Theorem Convert_accepts (buf : bytes) (o : ImageOptions.t) :
  (rejects (Convert buf o)
   <-> ImageOptions.Type_ o = ""
       \/ ImageType (ImageOptions.Type_ o) = bimg.UNKNOWN)
  /\ (ImageOptions.Type_ o <> "" ->
      ImageType (ImageOptions.Type_ o) <> bimg.UNKNOWN ->
      Convert buf o = Process buf (BimgOptions o)
      /\ gateway_options (Convert buf o) = [BimgOptions o]).
Proof.
  split; [apply Convert_rejects|].
  intros Htype Hknown. unfold Convert.
  destruct (String.eqb_spec (ImageOptions.Type_ o) ""); [contradiction|].
  split_tests; try contradiction.
  split; [reflexivity|apply Process_gateway_options].
Qed.

(** X15. [Watermark] returns a bad-input error without reaching the engine
    exactly when the text is empty: no other field, and no colour however
    short, makes it reject. *)
Theorem Watermark_rejects_iff (buf : bytes) (o : ImageOptions.t) :
  rejects (Watermark buf o) <-> ImageOptions.Text o = "".
Proof.
  split.
  - intros Hrej.
    destruct (String.eqb_spec (ImageOptions.Text o) "") as [Hempty|Htext];
      [exact Hempty|].
    exfalso. rewrite (Watermark_passes buf o Htext) in Hrej.
    eapply Process_not_rejects; exact Hrej.
  - intros Hempty. unfold Watermark. rewrite Hempty. apply rejects_ret.
Qed.

(** X16. [Resize], [Crop] and [Thumbnail] are layered: on every request the
    options [Crop] hands the gateway are those of [Thumbnail] with
    crop = true (whether or not noCrop is requested), and when noCrop is not
    requested the options of [Resize] are those of [Crop] with
    embed = true; the three reject the same requests. *)
Theorem Resize_Crop_Thumbnail_layers (buf : bytes) (o : ImageOptions.t) :
  gateway_options (Crop buf o)
  = map (bimg.Options.set_Crop true) (gateway_options (Thumbnail buf o))
  /\ (ImageOptions.NoCrop o = false ->
      gateway_options (Resize buf o)
      = map (bimg.Options.set_Embed true) (gateway_options (Crop buf o)))
  /\ (ImageOptions.NoCrop o = true ->
      gateway_options (Resize buf o)
      = map (bimg.Options.set_Embed true) (gateway_options (Thumbnail buf o))).
Proof.
  unfold Crop, Thumbnail, Resize.
  destruct ((ImageOptions.Width o =? 0) && (ImageOptions.Height o =? 0)).
  - repeat split.
  - rewrite !Process_gateway_options. repeat split; intros ->; simpl;
      destruct (BimgOptions o); reflexivity.
Qed.

(** X17. [Flip] and [Flop] have no validation: on every request, the empty
    one included, each makes exactly one engine call, with flip = true
    respectively flop = true and every other field, the other of the two
    flags included, as mapped. *)
Theorem Flip_Flop_unconditional (buf : bytes) (o : ImageOptions.t) :
  (~ rejects (Flip buf o)
   /\ exists opts : bimg.Options.t,
        calls (Flip buf o) = [CallResize buf opts]
        /\ bimg.Options.Flip opts = true
        /\ bimg.Options.set_Flip (bimg.Options.Flip (BimgOptions o)) opts
           = BimgOptions o)
  /\ (~ rejects (Flop buf o)
      /\ exists opts : bimg.Options.t,
           calls (Flop buf o) = [CallResize buf opts]
           /\ bimg.Options.Flop opts = true
           /\ bimg.Options.set_Flop (bimg.Options.Flop (BimgOptions o)) opts
              = BimgOptions o).
Proof.
  unfold Flip, Flop. split; (split; [apply Process_not_rejects|]);
    eexists; (split; [apply Process_calls|]);
    destruct (BimgOptions o); split; reflexivity.
Qed.

End Overrides.

(** ** The further properties on the sample engines *)

(** X1 on a buffer the sample engine refuses. *)
Lemma Process_engine_error_witness :
  bimg.Resize (Engine := Sample.engine) Sample.garbage bimg.Options.zero
  = Returns ([], Some (ForeignError "Unsupported image format"))
  /\ Process (engine := Sample.engine) (pkg := Sample.pkg) Sample.garbage
       bimg.Options.zero
     = (Returns (Image_zero, Some (ForeignError "Unsupported image format")),
        [CallResize Sample.garbage bimg.Options.zero]).
Proof.
  split; [reflexivity|].
  exact (Process_engine_error (engine := Sample.engine) (pkg := Sample.pkg)
           Sample.garbage bimg.Options.zero []
           (ForeignError "Unsupported image format") eq_refl).
Defined.

(** X3 on a buffer whose metadata the sample engine cannot read. *)
Lemma Info_metadata_error_witness :
  exists err : GoError,
    Info (engine := Sample.engine) (go := Sample.toolchain) Sample.garbage ImageOptions.zero
    = (Returns (mkImage [] "application/json", Some err),
       [CallMetadata Sample.garbage])
    /\ err = NewError
               "Cannot retrieve image medatata: %sUnsupported image format"
               BadRequest.
Proof.
  exact (Info_metadata_error (engine := Sample.engine) (go := Sample.toolchain) Sample.garbage
           ImageOptions.zero
           (bimg.ImageMetadata.mk 0 0 false false "" "" (bimg.ImageSize.mk 0 0))
           (ForeignError "Unsupported image format") eq_refl).
Defined.



(** X7 on a crop without dimensions. *)
Lemma catalog_no_call_is_rejection_witness :
  calls (Run (catalog (engine := Sample.engine) (pkg := Sample.pkg)
         (go := Sample.toolchain) crop)
           Sample.jpeg (Sample.with_size 0 0)) = []
  /\ exists msg : string,
       Run (catalog (engine := Sample.engine) (pkg := Sample.pkg)
         (go := Sample.toolchain) crop)
         Sample.jpeg (Sample.with_size 0 0)
       = (Returns (Image_zero, Some (NewError msg BadRequest)), []).
Proof.
  split; [reflexivity|].
  apply (catalog_no_call_is_rejection (engine := Sample.engine)
           (pkg := Sample.pkg) (go := Sample.toolchain) crop Sample.jpeg (Sample.with_size 0 0)).
  reflexivity.
Defined.

(** X8 on a conversion of a PNG to jpeg by the sample engine, which hands
    the PNG back: the image is announced as [image/png]. *)
Lemma catalog_success_image_witness :
  exists (img : Image) (tr : Trace),
    Run (catalog (engine := Sample.engine) (pkg := Sample.pkg)
         (go := Sample.toolchain) convert)
      Sample.png (Sample.with_type "jpeg")
    = (Returns (img, None), tr)
    /\ Mime img = "image/png"
    /\ exists opts : bimg.Options.t,
         tr = [CallResize Sample.png opts]
         /\ bimg.Resize (Engine := Sample.engine) Sample.png opts
            = Returns (Body img, None).
Proof.
  destruct (Run (catalog (engine := Sample.engine) (pkg := Sample.pkg)
         (go := Sample.toolchain) convert)
              Sample.png (Sample.with_type "jpeg"))
    as [[[img [e|]]|v] tr] eqn:Hrun; try (vm_compute in Hrun; discriminate Hrun).
  exists img, tr. split; [reflexivity|].
  destruct (catalog_success_image (engine := Sample.engine) (pkg := Sample.pkg) (go := Sample.toolchain)
              convert Sample.png (Sample.with_type "jpeg") img tr
              ltac:(discriminate) Hrun)
    as (opts & Htr & [(Hres & Hmime)|(Hnil & _)]).
  - split; [|exists opts; split; assumption].
    rewrite Hmime. vm_compute in Hrun. injection Hrun as <- _. reflexivity.
  - exfalso. vm_compute in Hnil. discriminate Hnil.
Defined.

(** X9 on a resize to 100 x 50. *)
Lemma catalog_keeps_mapped_fields_witness :
  exists opts : bimg.Options.t,
    gateway_options
      (Run (catalog (engine := Sample.engine) (pkg := Sample.pkg)
         (go := Sample.toolchain) resize)
         Sample.jpeg (Sample.with_size 100 50)) = [opts]
    /\ bimg.Options.Width opts = 100 /\ bimg.Options.Height opts = 50.
Proof.
  destruct (gateway_options
              (Run (catalog (engine := Sample.engine) (pkg := Sample.pkg)
         (go := Sample.toolchain) resize)
                 Sample.jpeg (Sample.with_size 100 50)))
    as [|opts [|more rest]] eqn:Hopts; try (vm_compute in Hopts; discriminate Hopts).
  exists opts. split; [reflexivity|].
  destruct (catalog_keeps_mapped_fields (engine := Sample.engine)
              (pkg := Sample.pkg) (go := Sample.toolchain) resize Sample.jpeg (Sample.with_size 100 50)
              opts) as (Hh & Hw & _).
  - rewrite Hopts. left. reflexivity.
  - split; [rewrite Hw|rewrite Hh]; reflexivity.
Defined.

(** X10 on an extraction with a zero area height. *)
Lemma Extract_validation_witness :
  ImageOptions.AreaHeight (Sample.with_zoom 0 10 10 50 0) = 0
  /\ Extract (engine := Sample.engine) (pkg := Sample.pkg) Sample.jpeg
       (Sample.with_zoom 0 10 10 50 0)
     = (Returns (Image_zero,
                 Some (NewError
                         "Missing required params: areawidth or areaheight"
                         BadRequest)),
        []).
Proof.
  split; [reflexivity|].
  destruct (Extract_validation (engine := Sample.engine) (pkg := Sample.pkg)
              Sample.jpeg (Sample.with_zoom 0 10 10 50 0)) as (_ & Hmsg).
  apply Hmsg. right. reflexivity.
Defined.

(** X11 on an extraction of 50 x 40 at the origin (0, -5). *)
Lemma Extract_options_witness :
  exists opts : bimg.Options.t,
    gateway_options
      (Extract (engine := Sample.engine) (pkg := Sample.pkg) Sample.jpeg
         (Sample.with_zoom 0 0 (-5) 50 40)) = [opts]
    /\ bimg.Options.Top opts = 0 /\ bimg.Options.Left opts = -5
    /\ bimg.Options.AreaWidth opts = 50 /\ bimg.Options.AreaHeight opts = 40.
Proof.
  destruct (Extract_options (engine := Sample.engine) (pkg := Sample.pkg)
              Sample.jpeg (Sample.with_zoom 0 0 (-5) 50 40)
              ltac:(simpl; lia) ltac:(simpl; lia))
    as (opts & _ & Hopts & Ht & Hl & Haw & Hah & _).
  exists opts. repeat split; assumption.
Defined.

(** X12 on factor 2, top 10, areaWidth 50 and areaHeight 0. *)
Lemma Zoom_Extract_area_witness :
  rejects (Extract (engine := Sample.engine) (pkg := Sample.pkg) Sample.jpeg
             (Sample.with_zoom 2 10 0 50 0))
  /\ ~ rejects (Zoom (engine := Sample.engine) (pkg := Sample.pkg) Sample.jpeg
                  (Sample.with_zoom 2 10 0 50 0)).
Proof.
  destruct (Zoom_Extract_area (engine := Sample.engine) (pkg := Sample.pkg)
              Sample.jpeg (Sample.with_zoom 2 10 0 50 0) ltac:(simpl; lia))
    as (_ & Hone).
  apply Hone; [left|right]; simpl; lia.
Defined.

(** X13 on factor 2 with areaWidth 50 and areaHeight 40: with top 10 the
    rectangle reaches the engine, without an origin it does not. *)
Lemma Zoom_rectangle_witness :
  (exists opts : bimg.Options.t,
     gateway_options
       (Zoom (engine := Sample.engine) (pkg := Sample.pkg) Sample.jpeg
          (Sample.with_zoom 2 10 0 50 40)) = [opts]
     /\ bimg.Options.Top opts = 10 /\ bimg.Options.AreaWidth opts = 50)
  /\ (exists opts : bimg.Options.t,
        gateway_options
          (Zoom (engine := Sample.engine) (pkg := Sample.pkg) Sample.jpeg
             (Sample.with_zoom 2 0 0 50 40)) = [opts]
        /\ bimg.Options.AreaWidth opts = 0 /\ bimg.Options.AreaHeight opts = 0).
Proof.
  split.
  - destruct (Zoom_rectangle (engine := Sample.engine) (pkg := Sample.pkg)
                Sample.jpeg (Sample.with_zoom 2 10 0 50 40)
                ltac:(simpl; lia) ltac:(simpl; lia))
      as (opts & Hopts & Horigin & _).
    destruct (Horigin ltac:(simpl; lia)) as (Ht & _ & Haw & _).
    exists opts. repeat split; assumption.
  - destruct (Zoom_rectangle (engine := Sample.engine) (pkg := Sample.pkg)
                Sample.jpeg (Sample.with_zoom 2 0 0 50 40)
                ltac:(simpl; lia) ltac:(simpl; lia))
      as (opts & Hopts & _ & Hfree).
    destruct (Hfree ltac:(simpl; lia)) as (_ & _ & Haw & Hah).
    exists opts. repeat split; assumption.
Defined.

(** X14 on a conversion to png. *)
Lemma Convert_accepts_witness :
  ImageOptions.Type_ (Sample.with_type "png") <> ""
  /\ ImageType (PackageMain := Sample.pkg) "png" <> bimg.UNKNOWN
  /\ gateway_options
       (Convert (engine := Sample.engine) (pkg := Sample.pkg) Sample.jpeg
          (Sample.with_type "png"))
     = [BimgOptions (PackageMain := Sample.pkg) (Sample.with_type "png")].
Proof.
  assert (Htype : ImageOptions.Type_ (Sample.with_type "png") <> "")
    by (simpl; discriminate).
  assert (Hknown : ImageType (PackageMain := Sample.pkg)
                     (ImageOptions.Type_ (Sample.with_type "png"))
                   <> bimg.UNKNOWN) by (vm_compute; discriminate).
  split; [exact Htype|]. split; [exact Hknown|].
  destruct (Convert_accepts (engine := Sample.engine) (pkg := Sample.pkg)
              Sample.jpeg (Sample.with_type "png")) as (_ & Hpass).
  exact (proj2 (Hpass Htype Hknown)).
Defined.

(** X16 on a resize to width 100 with noCrop not requested. *)
Lemma Resize_Crop_Thumbnail_layers_witness :
  ImageOptions.NoCrop (Sample.with_size 100 0) = false
  /\ gateway_options
       (Resize (engine := Sample.engine) (pkg := Sample.pkg) Sample.jpeg
          (Sample.with_size 100 0))
     = map (bimg.Options.set_Embed true)
         (gateway_options
            (Crop (engine := Sample.engine) (pkg := Sample.pkg) Sample.jpeg
               (Sample.with_size 100 0))).
Proof.
  split; [reflexivity|].
  destruct (Resize_Crop_Thumbnail_layers (engine := Sample.engine)
              (pkg := Sample.pkg) Sample.jpeg (Sample.with_size 100 0))
    as (_ & Hresize & _).
  exact (Hresize eq_refl).
Defined.
